(** * tinygrad C-style renderer ([tinygrad/renderer/cstyle.py])

    A shallow embedding of [CStyleLanguage], its five backend subclasses and
    the renderer [uops_to_cstyle], followed by the properties of the renderer
    that its specification states.

    Conventions of the embedding.
    - A Python exception is a value of [Error]; a function that can raise
      returns a [Result].  Assertion and exception messages are kept as tags.
    - [UOp] objects are compared and hashed by identity: identity is the
      field [uid].
    - The dictionaries [r] (symbol table) and [c] (name counters) are finite
      maps; [c] is a [defaultdict(int)], read with default [0].
    - Everything the module imports from [tinygrad.helpers] (the [DType]
      family, the [dtypes] table, [strip_parens], [getenv], [prod]) and the
      formatting of Python floats are not part of this module: they are the
      fields of the class [Helpers]. *)

From Stdlib Require Import ZArith String Ascii List Bool Lia.
From stdpp Require Import base option list strings gmap pretty.

Set Warnings "-register-all".
Open Scope string_scope.
Open Scope Z_scope.

(** ** Python strings *)

(** The characters that cannot be typed inside a string literal here. *)
Definition dquote : string := String "034" EmptyString.
Definition newline : string := String "010" EmptyString.

(** [sep.join(l)] *)
Definition join (sep : string) (l : list string) : string := String.concat sep l.

(** [s.startswith(p)] *)
Definition startswith (s p : string) : bool := String.prefix p s.

(** [s * n] for an integer [n]: empty when [n <= 0]. *)
Definition str_mul (s : string) (n : Z) : string :=
  String.concat EmptyString (replicate (Z.to_nat n) s).

(** [s.replace(old, new)] for a non-empty [old]: occurrences are replaced
    from the left and do not overlap.  [skip] counts the characters of an
    occurrence that is being stepped over. *)
Fixpoint str_replace_from (old new s : string) (skip : nat) : string :=
  match s with
  | EmptyString => EmptyString
  | String a s' =>
      match skip with
      | S k => str_replace_from old new s' k
      | O =>
          if String.prefix old s
          then new +:+ str_replace_from old new s' (Nat.pred (String.length old))
          else String a (str_replace_from old new s' O)
      end
  end.

Definition str_replace (s old new : string) : string := str_replace_from old new s O.

(** [l[i]] for a Python integer [i]: negative indices count from the end. *)
Definition py_index {A} (l : list A) (i : Z) : option A :=
  let n := Z.of_nat (length l) in
  if (0 <=? i) && (i <? n) then l !! Z.to_nat i
  else if (- n <=? i) && (i <? 0) then l !! Z.to_nat (i + n)
  else None.

(** ** Exceptions *)

(** The operation kinds [UOps] of [tinygrad.codegen.linearizer] that the
    renderer names; [UOTHER] stands for any kind it has no arm for. *)
Inductive UOps :=
  | LOOP | IF | BARRIER | END | WMMA | ALU | DEFINE_ACC | SPECIAL | CONST
  | LOAD | PHI | STORE | CAST | DEFINE_LOCAL | DEFINE_GLOBAL | GEP
  | UOTHER (name : string).

Inductive AssertMsg :=
  | cast_is_wrong_size            (* "cast is wrong size {len(x)} != {var_dtype.sz}" *)
  | vectorized_cast_not_supported (* "vectorized cast is not supported on this platform" *)
  | images_must_be_float4         (* "images must be float4, getting ..." *)
  | output_dtype_of_METAL_TC      (* "output dtype of METAL TC is _float2" *)
  | output_dtype_of_HIP_TC        (* "output dtype of HIP TC is _float8" *)
  | childless_ALU_op_found        (* "childless ALU op found {u}" *)
  | no_message.                   (* an [assert] without a message *)

Inductive Error :=
  | AssertionError (msg : AssertMsg)
  | NotImplementedError_WMMA      (* "WMMA not implemented for {args}" *)
  | NotImplementedError_no_cast   (* "no cast for {var_dtype}" *)
  | RuntimeError_failed_to_render (uop : UOps)   (* "failed to render {uop}" *)
  | KeyError | IndexError | TypeError | AttributeError | OverflowError | ValueError.

Inductive Result (A : Type) :=
  | Ok (a : A)
  | Err (e : Error).
Arguments Ok {A} a.
Arguments Err {A} e.

(** Sequencing: the first exception raised ends the computation. *)
Definition bind {A B} (m : Result A) (f : A -> Result B) : Result B :=
  match m with
  | Ok a => f a
  | Err e => Err e
  end.

Notation "'let*' x ':=' m 'in' k" := (bind m (fun x => k))
  (at level 10, x name, m at level 100, k at level 200).

(** [assert b, msg] *)
Definition assert (b : bool) (msg : AssertMsg) : Result unit :=
  if b then Ok tt else Err (AssertionError msg).

(** A lookup that raises [e] when there is nothing to find. *)
Definition or_raise {A} (o : option A) (e : Error) : Result A :=
  match o with
  | Some a => Ok a
  | None => Err e
  end.

Definition is_Ok {A} (m : Result A) : bool :=
  match m with
  | Ok _ => true
  | Err _ => false
  end.

(** ** What the module imports *)

(** The operator tags of [tinygrad.ops] that an operator table has an entry
    for; [OtherOp] stands for any other member of the three enumerations. *)
Inductive Op :=
  | NEG | EXP2 | LOG2 | SIN | SQRT
  | ADD | SUB | MUL | DIV | MAX | MOD | CMPLT | XOR
  | MULACC | WHERE
  | OtherOp (name : string).

#[global] Instance Op_eq_dec : EqDecision Op.
Proof. solve_decision. Defined.

#[global] Instance UOps_eq_dec : EqDecision UOps.
Proof. solve_decision. Defined.

(** Modelled from the spec: [tinygrad.helpers] and the float formatting of
    the Python runtime are missing from the sources.  The renderer uses them
    only through the following interface: a semantic type has a name and a
    vector width, is compared with [==], may be a pointer or an image type;
    [dtypes] is a table of scalar types with the predicates [is_int] and
    [is_float] (both are also called on an absent type). *)
Class Helpers := {
  DType : Type;
  dt_name : DType -> string;                (* [d.name] *)
  dt_sz : DType -> Z;                       (* [d.sz] *)
  dt_eqb : DType -> DType -> bool;          (* [d == d'] *)
  dt_scalar : DType -> DType;               (* [d.scalar()] *)
  dt_vec : DType -> Z -> DType;             (* [d.vec(n)] *)
  is_ImageDType : DType -> bool;            (* [isinstance(d, ImageDType)] *)
  is_PtrDType : DType -> bool;              (* [isinstance(d, PtrDType)] *)
  dtypes_bool : DType;
  dtypes_int : DType;
  dtypes_int32 : DType;
  dtypes_uint8 : DType;
  dtypes_uint16 : DType;
  dtypes_uint32 : DType;
  dtypes_uint64 : DType;
  dtypes_half : DType;
  dtypes_float16 : DType;
  dtypes_float : DType;
  dtypes_is_int : option DType -> bool;     (* [dtypes.is_int(d)] *)
  dtypes_is_float : option DType -> bool;   (* [dtypes.is_float(d)] *)
  strip_parens : string -> string;
  getenv : string -> Z;
  prod : list Z -> Z;
  (* Python floats that are neither NaN nor infinite *)
  Finite : Type;
  fin_repr : Finite -> string;              (* [f"{x}"] *)
  fin_negative : Finite -> bool;            (* [x < 0] *)
  fin_int : Finite -> Z;                    (* [int(x)] *)
  fin_bool : Finite -> bool;                (* [bool(x)] *)
  float_of_int : Z -> option Finite;        (* [float(n)], [None] on overflow *)
  float_of_bool : bool -> Finite            (* [float(b)] *)
}.

Section Renderer.
Context `{H : Helpers}.

(** [d != d'] *)
Definition dt_neqb (d d' : DType) : bool := negb (dt_eqb d d').


(** [d in l] *)
Definition dt_in (d : DType) (l : list DType) : bool := existsb (dt_eqb d) l.

(** [m.get(d)] for a dictionary display keyed by types, given as its items
    in the order written: of two items with equal keys the later one counts. *)
Fixpoint dt_lookup (m : list (DType * string)) (d : DType) : option string :=
  match m with
  | [] => None
  | (k, v) :: m' =>
      match dt_lookup m' d with
      | Some v' => Some v'
      | None => if dt_eqb k d then Some v else None
      end
  end.

(** ** Python numbers: the payload of a constant *)

Inductive PyFloat :=
  | FNan
  | FInf (negative : bool)
  | FFin (x : Finite).

Inductive PyNum :=
  | NBool (b : bool)
  | NInt (n : Z)
  | NFloat (f : PyFloat).

(** [float(x)] *)
Definition py_float (x : PyNum) : Result PyFloat :=
  match x with
  | NBool b => Ok (FFin (float_of_bool b))
  | NInt n => let* y := or_raise (float_of_int n) OverflowError in Ok (FFin y)
  | NFloat f => Ok f
  end.

(** [math.isnan(x)] and [math.isinf(x)] convert their argument to a float. *)
Definition math_isnan (x : PyNum) : Result bool :=
  let* f := py_float x in
  Ok (match f with FNan => true | _ => false end).

Definition math_isinf (x : PyNum) : Result bool :=
  let* f := py_float x in
  Ok (match f with FInf _ => true | _ => false end).

(** [x < 0] and [x >= 0] *)
Definition py_lt0 (x : PyNum) : bool :=
  match x with
  | NBool _ => false
  | NInt n => n <? 0
  | NFloat FNan => false
  | NFloat (FInf neg) => neg
  | NFloat (FFin f) => fin_negative f
  end.

Definition py_ge0 (x : PyNum) : bool :=
  match x with
  | NBool _ => true
  | NInt n => 0 <=? n
  | NFloat FNan => false
  | NFloat (FInf neg) => negb neg
  | NFloat (FFin f) => negb (fin_negative f)
  end.

(** [f"{float(x)}"], [int(x)] and [bool(x)] for a number that is neither
    NaN nor infinite. *)
Definition py_float_str (x : PyNum) : Result string :=
  let* f := py_float x in
  match f with
  | FFin y => Ok (fin_repr y)
  | FNan => Ok "nan"
  | FInf neg => Ok (if neg then "-inf" else "inf")
  end.

Definition py_int (x : PyNum) : Result Z :=
  match x with
  | NBool b => Ok (if b then 1 else 0)
  | NInt n => Ok n
  | NFloat (FFin f) => Ok (fin_int f)
  | NFloat FNan => Err ValueError
  | NFloat (FInf _) => Err OverflowError
  end.

Definition py_bool (x : PyNum) : bool :=
  match x with
  | NBool b => b
  | NInt n => negb (n =? 0)
  | NFloat (FFin f) => fin_bool f
  | NFloat _ => true
  end.

(** [f"{b}".lower()] *)
Definition bool_str_lower (b : bool) : string := if b then "true" else "false".

(** ** The language profile *)

(** A rendering function of an operator table, called with the operand
    strings and the result type.  The functions of the tables only format
    strings: [None] is the [TypeError] of a call with the wrong number of
    operands. *)
Definition OpRender : Type := list string -> DType -> option string.

Definition unary (f : string -> DType -> string) : OpRender :=
  fun xs dtype => match xs with [x] => Some (f x dtype) | _ => None end.
Definition binary (f : string -> string -> DType -> string) : OpRender :=
  fun xs dtype => match xs with [a; b] => Some (f a b dtype) | _ => None end.
Definition ternary (f : string -> string -> string -> DType -> string) : OpRender :=
  fun xs dtype => match xs with [a; b; c] => Some (f a b c dtype) | _ => None end.

(** The class whose methods an instance runs. *)
Inductive LangClass :=
  | CStyleLanguage_cls | OpenCLLanguage | MetalLanguage | CUDALanguage
  | HIPLanguage | WGSLLanguage.

Record CStyleLanguage := {
  lang_class : LangClass;
  size_prefix : string;
  generic_var_prefix : string;
  kernel_prefix : string;
  buffer_prefix : string;
  buffer_suffix : string;
  smem_align : string;
  smem_prefix : string;
  smem_prefix_for_cast : bool;
  arg_int_prefix : string;
  barrier : string;
  xid : list string;
  gid : list string;
  lid : list string;
  global_max : list Z;
  local_max : list Z;
  extra_args : list string;
  float4 : option string;
  half_prekernel : option string;
  uses_vload : bool;
  external_local_bufs : bool;
  uses_ptr_arithmetic : bool;
  launch_bounds : bool;
  code_for_op : Op -> option OpRender
}.

(** [CStyleLanguage.code_for_op] *)
Definition CStyle_code_for_op (o : Op) : option OpRender :=
  match o with
  | NEG => Some (unary (fun x dtype =>
      if dt_neqb dtype dtypes_bool then "(-" +:+ x +:+ ")" else "(!" +:+ x +:+ ")"))
  | EXP2 => Some (unary (fun x _ => "exp2(" +:+ x +:+ ")"))
  | LOG2 => Some (unary (fun x _ => "log2(" +:+ x +:+ ")"))
  | SIN => Some (unary (fun x _ => "sin(" +:+ x +:+ ")"))
  | SQRT => Some (unary (fun x _ => "sqrt(" +:+ x +:+ ")"))
  | ADD => Some (binary (fun a b _ => "(" +:+ a +:+ "+" +:+ b +:+ ")"))
  | SUB => Some (binary (fun a b _ => "(" +:+ a +:+ "-" +:+ b +:+ ")"))
  | MUL => Some (binary (fun a b _ => "(" +:+ a +:+ "*" +:+ b +:+ ")"))
  | DIV => Some (binary (fun a b _ => "(" +:+ a +:+ "/" +:+ b +:+ ")"))
  | MAX => Some (binary (fun a b _ => "max(" +:+ a +:+ "," +:+ b +:+ ")"))
  | MOD => Some (binary (fun a b _ => "(" +:+ a +:+ "%" +:+ b +:+ ")"))
  | CMPLT => Some (binary (fun a b _ => "(" +:+ a +:+ "<" +:+ b +:+ ")"))
  | XOR => Some (binary (fun a b _ => "(" +:+ a +:+ "^" +:+ b +:+ ")"))
  | MULACC => Some (ternary (fun a b c _ =>
      "((" +:+ a +:+ "*" +:+ b +:+ ")+" +:+ c +:+ ")"))
  | WHERE => Some (ternary (fun a b c _ =>
      "(" +:+ a +:+ "?" +:+ b +:+ ":" +:+ c +:+ ")"))
  | OtherOp _ => None
  end.

(** [{**base, **over}] *)
Definition dict_update (base over : Op -> option OpRender) : Op -> option OpRender :=
  fun o => match over o with Some f => Some f | None => base o end.

(** [code_for_op_half] *)
Definition half_call (plain half : string) : string -> DType -> string :=
  fun x dtype =>
    (if dt_neqb dtype dtypes_half then plain else half) +:+ "(" +:+ x +:+ ")".

Definition code_for_op_half (o : Op) : option OpRender :=
  match o with
  | MAX => Some (binary (fun a b dtype =>
      (if dt_neqb dtype dtypes_half then "max" else "__hmax")
        +:+ "(" +:+ a +:+ "," +:+ b +:+ ")"))
  | SQRT => Some (unary (half_call "sqrt" "hsqrt"))
  | SIN => Some (unary (half_call "sin" "hsin"))
  | LOG2 => Some (unary (half_call "log2" "hlog2"))
  | EXP2 => Some (unary (half_call "exp2" "hexp2"))
  | _ => None
  end.

(** ** The rendering hooks

    A hook that a subclass overrides dispatches on [lang_class]; a call
    through [self] inside a base method goes through the dispatching
    version, as it does in Python. *)

(** [OpenCLLanguage.type_map] and [WGSLLanguage.type_map], as their items *)
Definition OpenCL_type_map : list (DType * string) :=
  [(dtypes_uint8, "uchar"); (dtypes_uint32, "uint"); (dtypes_uint16, "ushort");
   (dtypes_uint64, "ulong")].

Definition WGSL_type_map : list (DType * string) :=
  [(dtypes_float, "f32"); (dtypes_half, "f16"); (dtypes_int32, "i32");
   (dtypes_uint32, "u32"); (dtypes_bool, "f32")].

(** [x[0]] *)
Definition first (x : list string) : Result string := or_raise (x !! 0%nat) IndexError.

(** [CStyleLanguage.render_cast] *)
Definition CStyle_render_cast (self : CStyleLanguage) (x : list string)
    (var_dtype : DType) (bitcast : bool) : Result string :=
  if bitcast then
    let* x0 := first x in
    Ok ("(*((" +:+ buffer_prefix self +:+ dt_name var_dtype +:+ "*)&" +:+ x0 +:+ "))")
  else if Z.of_nat (length x) =? 1 then
    let* x0 := first x in
    Ok ("(" +:+ dt_name var_dtype +:+ ")(" +:+ x0 +:+ ")")
  else
    let* _ := assert (Z.of_nat (length x) =? dt_sz var_dtype) cast_is_wrong_size in
    match float4 self with
    | None => Err (AssertionError vectorized_cast_not_supported)
    | Some f4 =>
        Ok (str_replace f4 "float4" (dt_name var_dtype) +:+ "(" +:+ join "," x +:+ ")")
    end.

(** [render_cast], with the overrides of OpenCL, Metal and WGSL.  The two
    [super()] calls do not pass [bitcast] on. *)
Definition render_cast (self : CStyleLanguage) (x : list string)
    (var_dtype : DType) (bitcast : bool) : Result string :=
  match lang_class self with
  | OpenCLLanguage =>
      if bitcast then
        let t := match dt_lookup OpenCL_type_map var_dtype with
                 | Some n => if String.eqb n EmptyString then dt_name var_dtype else n
                 | None => dt_name var_dtype
                 end in
        let* x0 := first x in
        Ok ("as_" +:+ t +:+ "(" +:+ x0 +:+ ")")
      else CStyle_render_cast self x var_dtype false
  | MetalLanguage =>
      if bitcast then
        let* x0 := first x in
        Ok ("as_type<" +:+ dt_name var_dtype +:+ ">(" +:+ x0 +:+ ")")
      else CStyle_render_cast self x var_dtype false
  | WGSLLanguage =>
      let* t := or_raise (dt_lookup WGSL_type_map var_dtype) KeyError in
      if negb (String.eqb t EmptyString) then
        let* x0 := first x in
        Ok (if bitcast then "bitcast<" +:+ t +:+ ">(" +:+ x0 +:+ ")"
            else t +:+ "(" +:+ x0 +:+ ")")
      else Err NotImplementedError_no_cast
  | _ => CStyle_render_cast self x var_dtype bitcast
  end.

(** [CStyleLanguage.render_const]; the type of a CONST record may be absent. *)
Definition CStyle_render_const (self : CStyleLanguage) (x : PyNum)
    (var_dtype : option DType) : Result string :=
  let* nan := math_isnan x in
  let* val := (if nan then Ok "NAN"
         else
           let* inf := math_isinf x in
           if inf then Ok ((if py_lt0 x then "-" else EmptyString) +:+ "INFINITY")
           else if dtypes_is_float var_dtype then
             let* s := py_float_str x in Ok (s +:+ "f")
           else if dtypes_is_int var_dtype then
             let* n := py_int x in Ok (pretty n)
           else Ok (bool_str_lower (py_bool x))) in
  let* d := or_raise var_dtype AttributeError in
  if (1 <? dt_sz d) || negb (dt_in d [dtypes_float; dtypes_int; dtypes_bool])
  then render_cast self (replicate (Z.to_nat (dt_sz d)) val) d false
  else Ok val.

(** [render_const], with the override of WGSL *)
Definition render_const (self : CStyleLanguage) (x : PyNum)
    (var_dtype : option DType) : Result string :=
  match lang_class self with
  | WGSLLanguage =>
      let* nan := math_isnan x in
      if nan then Ok "nan()"
      else
        let* inf := math_isinf x in
        if inf then Ok ((if py_lt0 x then "-" else EmptyString) +:+ "inf(1.0)")
        else
          let* s := CStyle_render_const self x var_dtype in
          Ok ("(" +:+ s +:+ ")")
  | _ => CStyle_render_const self x var_dtype
  end.

(** The address-space qualifier of a vector access *)
Definition cast_prefix (self : CStyleLanguage) (local : bool) : string :=
  if local && smem_prefix_for_cast self then smem_prefix self else buffer_prefix self.

(** [CStyleLanguage.render_load]; the type of the buffer operand may be
    absent. *)
Definition render_load (self : CStyleLanguage) (output_dtype : DType)
    (buf_name : string) (buf_dtype : option DType) (idx : string)
    (local : bool) : Result string :=
  if match buf_dtype with Some b => is_ImageDType b | None => false end then
    let* _ := assert (dt_eqb output_dtype (dt_vec dtypes_float 4)) images_must_be_float4 in
    Ok ("read_imagef(" +:+ buf_name +:+ ", smp, " +:+ idx +:+ ")")
  else
    let* vload :=
      (if uses_vload self then
         let* b := or_raise buf_dtype AttributeError in
         Ok (dt_eqb (dt_scalar b) dtypes_float16
             && dt_neqb (dt_scalar output_dtype) dtypes_float16)
       else Ok false) in
    if vload then
      Ok ("vload_half"
          +:+ (if dt_sz output_dtype =? 1 then EmptyString else pretty (dt_sz output_dtype))
          +:+ "(0, " +:+ buf_name +:+ "+" +:+ idx +:+ ")")
    else
      let* out_val :=
        (if 1 <? dt_sz output_dtype then
           let* b := or_raise buf_dtype AttributeError in
           Ok ("*((" +:+ cast_prefix self local +:+ dt_name b
               +:+ pretty (dt_sz output_dtype) +:+ "*)(" +:+ buf_name +:+ "+"
               +:+ idx +:+ "))")
         else if uses_ptr_arithmetic self
           then Ok ("*(" +:+ buf_name +:+ "+" +:+ idx +:+ ")")
           else Ok (buf_name +:+ "[" +:+ idx +:+ "]")) in
      if match buf_dtype with
         | Some b => dt_neqb output_dtype b
         | None => true
         end
      then render_cast self [out_val] output_dtype false
      else Ok out_val.

(** [render_local], with the override of WGSL *)
Definition render_local (self : CStyleLanguage) (name : string) (size : Z) : string :=
  match lang_class self with
  | WGSLLanguage => "var<workgroup> " +:+ name +:+ ": array<f32," +:+ pretty size +:+ ">;"
  | _ => smem_align self +:+ smem_prefix self +:+ "float " +:+ name
           +:+ "[" +:+ pretty size +:+ "];"
  end.

(** [CStyleLanguage.render_for] *)
Definition render_for (self : CStyleLanguage) (expr _min _max : string) : string :=
  "for ("
    +:+ (if negb (String.eqb (generic_var_prefix self) EmptyString)
         then generic_var_prefix self else "int")
    +:+ " " +:+ expr +:+ " = " +:+ _min +:+ "; " +:+ expr +:+ " < " +:+ _max
    +:+ "; " +:+ expr +:+ "++) {".

(** [render_if], with the override of WGSL *)
Definition render_if (self : CStyleLanguage) (cond : string) : string :=
  match lang_class self with
  | WGSLLanguage => "if (bool(" +:+ cond +:+ ")) {"
  | _ => "if (" +:+ cond +:+ ") {"
  end.

(** [render_conditional], with the override of WGSL *)
Definition render_conditional (self : CStyleLanguage) (cond x y : string) : string :=
  match lang_class self with
  | WGSLLanguage => "select(" +:+ y +:+ ", " +:+ x +:+ ", bool(" +:+ cond +:+ "))"
  | _ => "(" +:+ cond +:+ ")?(" +:+ x +:+ "):" +:+ y
  end.

(** [CStyleLanguage.render_store] *)
Definition CStyle_render_store (self : CStyleLanguage) (buf_name : string)
    (buf_dtype : DType) (var_name : string) (var_dtype : DType) (idx : string)
    (local : bool) : Result string :=
  if is_ImageDType buf_dtype then
    let* _ := assert (dt_eqb var_dtype (dt_vec dtypes_float 4)) images_must_be_float4 in
    Ok ("write_imagef(" +:+ buf_name +:+ ", " +:+ idx +:+ ", " +:+ var_name +:+ ");")
  else if uses_vload self && dt_eqb (dt_scalar buf_dtype) dtypes_float16
          && dt_neqb (dt_scalar var_dtype) dtypes_float16 then
    Ok ("vstore_half"
        +:+ (if dt_sz var_dtype =? 1 then EmptyString else pretty (dt_sz var_dtype))
        +:+ "(" +:+ var_name +:+ ", 0, " +:+ buf_name +:+ "+" +:+ idx +:+ ");")
  else if 1 <? dt_sz var_dtype then
    Ok ("*((" +:+ cast_prefix self local +:+ dt_name buf_dtype
        +:+ pretty (dt_sz var_dtype) +:+ "*)(" +:+ buf_name +:+ "+" +:+ idx
        +:+ ")) = (" +:+ dt_name buf_dtype +:+ pretty (dt_sz var_dtype) +:+ ")"
        +:+ var_name +:+ ";")
  else if uses_ptr_arithmetic self
    then Ok ("*(" +:+ buf_name +:+ "+" +:+ idx +:+ ") = " +:+ var_name +:+ ";")
    else Ok (buf_name +:+ "[" +:+ idx +:+ "] = " +:+ var_name +:+ ";").

(** [render_store], with the override of WGSL *)
Definition render_store (self : CStyleLanguage) (buf_name : string)
    (buf_dtype : DType) (var_name : string) (var_dtype : DType) (idx : string)
    (local : bool) : Result string :=
  match lang_class self with
  | WGSLLanguage =>
      let* v := (if dt_neqb var_dtype buf_dtype
                 then render_cast self [var_name] buf_dtype false
                 else Ok var_name) in
      Ok (buf_name +:+ "[" +:+ idx +:+ "] = " +:+ v +:+ ";")
  | _ => CStyle_render_store self buf_name buf_dtype var_name var_dtype idx local
  end.

(** [any(p(x) for x in l)] *)
Definition any {A} (p : A -> bool) (l : list A) : bool := existsb p l.

(** [f"{t}"] for an optional string *)
Definition fmt_opt (t : option string) : string :=
  match t with
  | Some s => s
  | None => "None"
  end.

Definition sampler_decl : string :=
  "const sampler_t smp = CLK_NORMALIZED_COORDS_FALSE | CLK_ADDRESS_CLAMP | CLK_FILTER_NEAREST;"
    +:+ newline.

(** The entry of [buftypes] for the [i]-th buffer *)
Definition buftype (self : CStyleLanguage) (i : nat) (b : string * DType)
  : string * option string :=
  let '(name, dtype) := b in
  (name,
   if startswith (dt_name dtype) "image" then
     Some ((if (0 <? i)%nat then "read_only" else "write_only") +:+ " image2d_t")
   else if is_PtrDType dtype then
     Some ((if (0 <? i)%nat then "const " else EmptyString) +:+ buffer_prefix self
           +:+ dt_name dtype +:+ "*" +:+ buffer_suffix self)
   else if dt_eqb dtype dtypes_int then Some (arg_int_prefix self)
   else None).

(** [CStyleLanguage.render_kernel] *)
Definition CStyle_render_kernel (self : CStyleLanguage) (function_name : string)
    (kernel : list string) (bufs : list (string * DType)) (local_size : list Z)
    (prekernel : list string) : string :=
  let tmp := if any (fun b => is_ImageDType (snd b)) bufs then sampler_decl else EmptyString in
  let buftypes := imap (buftype self) bufs in
  let prg := join EmptyString
    ([kernel_prefix self +:+ "void "
        +:+ (if launch_bounds self
             then "__launch_bounds__ (" +:+ pretty (prod local_size) +:+ ", 1) "
             else EmptyString)
        +:+ function_name +:+ "("]
     ++ [join ", " (map (fun nt => fmt_opt (snd nt) +:+ " " +:+ fst nt) buftypes
                    ++ extra_args self)]
     ++ [") {" +:+ newline +:+ tmp]
     ++ [join newline kernel; newline +:+ "}"]) in
  match half_prekernel self with
  | Some hp =>
      if negb (String.eqb hp EmptyString) && any (fun b => dt_eqb (snd b) dtypes_float16) bufs
      then join EmptyString [hp; newline; prg]
      else prg
  | None => prg
  end.

Definition WGSL_prelude : string :=
  "fn nan() -> f32 { let bits = 0xffffffffu; return bitcast<f32>(bits); }" +:+ newline
    +:+ "fn inf(a: f32) -> f32 { return a/0.0; }" +:+ newline.

(** The binding declaration of the [i]-th buffer; [next(bind_it)] is [i]. *)
Definition WGSL_binding (i : nat) (b : string * DType) : Result string :=
  let '(name, dtype) := b in
  let* t := (if is_PtrDType dtype then
               let* e := or_raise (dt_lookup WGSL_type_map dtype) KeyError in
               Ok ("array<" +:+ e +:+ ">")
             else Ok "i32") in
  Ok ("@group(0) @binding(" +:+ pretty i +:+ ") "
      +:+ (if is_PtrDType dtype then "var<storage,read_write>" else "var<uniform>")
      +:+ " " +:+ name +:+ ": " +:+ t +:+ ";").

(** A list comprehension whose element expression can raise *)
Fixpoint collect {A} (l : list (Result A)) : Result (list A) :=
  match l with
  | [] => Ok []
  | m :: l' =>
      let* a := m in
      let* rest := collect l' in
      Ok (a :: rest)
  end.

(** [WGSLLanguage.render_kernel] *)
Definition WGSL_render_kernel (self : CStyleLanguage) (function_name : string)
    (kernel : list string) (bufs : list (string * DType)) (local_size : list Z)
    (prekernel : list string) : Result string :=
  let local_size := match local_size with [] => [1] | _ => rev local_size end in
  let* bindings := collect (imap WGSL_binding bufs) in
  Ok (WGSL_prelude
      +:+ join newline (prekernel ++ bindings)
      +:+ (newline +:+ "@compute @workgroup_size("
           +:+ join "," (map pretty local_size) +:+ ") fn " +:+ function_name
           +:+ "(@builtin(workgroup_id) gindex: vec3<u32>, @builtin(local_invocation_id) lindex: vec3<u32>) {"
           +:+ newline)
      +:+ join newline kernel +:+ newline +:+ "}").

(** [render_kernel], with the override of WGSL *)
Definition render_kernel (self : CStyleLanguage) (function_name : string)
    (kernel : list string) (bufs : list (string * DType)) (local_size : list Z)
    (prekernel : list string) : Result string :=
  match lang_class self with
  | WGSLLanguage => WGSL_render_kernel self function_name kernel bufs local_size prekernel
  | _ => Ok (CStyle_render_kernel self function_name kernel bufs local_size prekernel)
  end.

(** ** Operation records *)

(** The payload [arg] of a record, in the shapes the renderer takes apart.
    A payload of a shape that a kind does not take apart is reported as
    [TypeError]. *)
Inductive Arg :=
  | ArgNone
  | ArgOp (op : Op)                                   (* ALU: the operator *)
  | ArgStr (name : string)                            (* DEFINE_GLOBAL: the buffer name *)
  | ArgNum (x : PyNum)                                (* CONST, DEFINE_ACC: the value; GEP: the index *)
  | ArgSpecial (axis : Z) (name : string) (size : Z)  (* SPECIAL: [(axis, name, size)] *)
  | ArgLocal (name : string) (size : Z)               (* DEFINE_LOCAL: [(name, size)] *)
  | ArgWMMA (tag : string)                            (* WMMA: a tuple that starts with the backend tag *)
  | ArgCast (to : DType) (bitcast : bool).            (* CAST: a tuple [(dtype, bitcast)] *)

(** [UOp(uop, dtype, vin, arg)]; [uid] is the identity of the object. *)
Inductive UOp := mkUOp {
  uid : nat;
  uop : UOps;
  dtype : option DType;
  vin : list UOp;
  arg : Arg
}.

(** [a == b] for two payloads, when [b] is an operator tag *)
Definition arg_is_op (a : Arg) (o : Op) : bool :=
  match a with
  | ArgOp o' => bool_decide (o' = o)
  | _ => false
  end.

(** [child_count = Counter(v for ru in uops for v in ru.vin)], read at [u] *)
Definition child_count (uops : list UOp) (u : UOp) : Z :=
  Z.of_nat (length (filter (fun v => uid v = uid u) (flat_map vin uops))).

(** ** The state of one render call *)

Record State := {
  kernel : list string;
  prekernel : list string;
  bufs : list (string * DType);
  local_size : list Z;
  depth : Z;
  c : gmap string Z;
  r : gmap nat string
}.

Definition initial_state : State :=
  {| kernel := []; prekernel := []; bufs := []; local_size := []; depth := 1;
     c := ∅; r := ∅ |}.

(** [kk(s)] *)
Definition kk (s : string) (st : State) : State :=
  {| kernel := kernel st ++ [str_mul "  " (depth st) +:+ s];
     prekernel := prekernel st; bufs := bufs st; local_size := local_size st;
     depth := depth st; c := c st; r := r st |}.

(** [r[u] = s] *)
Definition set_r (u : UOp) (s : string) (st : State) : State :=
  {| kernel := kernel st; prekernel := prekernel st; bufs := bufs st;
     local_size := local_size st; depth := depth st; c := c st;
     r := <[uid u := s]> (r st) |}.

(** [depth += d] *)
Definition add_depth (d : Z) (st : State) : State :=
  {| kernel := kernel st; prekernel := prekernel st; bufs := bufs st;
     local_size := local_size st; depth := depth st + d; c := c st; r := r st |}.

(** [c[prefix]] *)
Definition counter (st : State) (prefix : string) : Z := default 0 (c st !! prefix).

(** [ssa(u, prefix)]: the new name and the state after the call *)
Definition ssa (u : UOp) (prefix : string) (st : State) : string * State :=
  let name := prefix +:+ pretty (counter st prefix) in
  (name,
   {| kernel := kernel st; prekernel := prekernel st; bufs := bufs st;
      local_size := local_size st; depth := depth st;
      c := <[prefix := counter st prefix + 1]> (c st);
      r := <[uid u := name]> (r st) |}).

(** [r[v]] *)
Definition r_get (st : State) (v : UOp) : Result string :=
  or_raise (r st !! uid v) KeyError.

(** [vin[i]] and [r[vin[i]]] *)
Definition vin_at (u : UOp) (i : nat) : Result UOp := or_raise (vin u !! i) IndexError.

Definition r_vin (st : State) (u : UOp) (i : nat) : Result string :=
  let* v := vin_at u i in r_get st v.

(** [[r[x] for x in l]] *)
Definition r_all (st : State) (l : list UOp) : Result (list string) :=
  collect (map (r_get st) l).

(** [lang.generic_var_prefix if lang.generic_var_prefix else dtype.name] *)
Definition var_prefix (lang : CStyleLanguage) (d : DType) : string :=
  if negb (String.eqb (generic_var_prefix lang) EmptyString)
  then generic_var_prefix lang else dt_name d.

(** [kk(f"{prefix} {ssa(u, p)} = {val};")] *)
Definition declare (lang : CStyleLanguage) (u : UOp) (d : DType) (p val : string)
    (st : State) : State :=
  let '(name, st1) := ssa u p st in
  kk (var_prefix lang d +:+ " " +:+ name +:+ " = " +:+ val +:+ ";") st1.

(** ** The arms of the dispatch in [uops_to_cstyle]

    One definition for each arm of the [if]/[elif] chain; [cc] is
    [child_count]. *)

Definition render_LOOP (lang : CStyleLanguage) (u : UOp) (st : State) : Result State :=
  let '(name, st1) := ssa u "ridx" st in
  let* lo := r_vin st1 u 0 in
  let* hi := r_vin st1 u 1 in
  Ok (add_depth 1 (kk (render_for lang name lo hi) st1)).

Definition render_IF (lang : CStyleLanguage) (u : UOp) (st : State) : Result State :=
  let* cond := r_vin st u 0 in
  Ok (add_depth 1 (kk (render_if lang cond) st)).

Definition render_BARRIER (lang : CStyleLanguage) (st : State) : Result State :=
  Ok (kk (barrier lang) st).

Definition render_END (st : State) : Result State :=
  Ok (kk "}" (add_depth (-1) st)).

Definition render_WMMA (lang : CStyleLanguage) (u : UOp) (st : State) : Result State :=
  match arg u with
  | ArgWMMA tag =>
      if String.eqb tag "METAL" then
        match dtype u with
        | Some d =>
            let* _ := assert (dt_eqb d (dt_vec dtypes_float 2)) output_dtype_of_METAL_TC in
            let '(output, st1) := ssa u "wmma" st in
            let st2 := kk (var_prefix lang d +:+ " " +:+ output +:+ ";") st1 in
            let st3 := kk "{ simdgroup_float8x8 a,b,c;" st2 in
            let* a0 := r_vin st3 u 0 in
            let* a1 := r_vin st3 u 1 in
            let st4 := kk ("a.thread_elements()[0] = " +:+ a0
                           +:+ "; a.thread_elements()[1] = " +:+ a1 +:+ ";") st3 in
            let* b0 := r_vin st4 u 2 in
            let* b1 := r_vin st4 u 3 in
            let st5 := kk ("b.thread_elements()[0] = " +:+ b0
                           +:+ "; b.thread_elements()[1] = " +:+ b1 +:+ ";") st4 in
            let* c0 := r_vin st5 u 4 in
            let* c1 := r_vin st5 u 5 in
            let st6 := kk ("c.thread_elements()[0] = " +:+ c0
                           +:+ "; c.thread_elements()[1] = " +:+ c1 +:+ ";") st5 in
            let st7 := kk "simdgroup_multiply_accumulate(c, a, b, c);" st6 in
            Ok (kk (output +:+ ".x = c.thread_elements()[0]; " +:+ output
                    +:+ ".y = c.thread_elements()[1]; }") st7)
        | None => Err (AssertionError output_dtype_of_METAL_TC)
        end
      else if String.eqb tag "HIP" then
        match dtype u with
        | Some d =>
            let* _ := assert (dt_eqb d (dt_vec dtypes_float 8)) output_dtype_of_HIP_TC in
            let '(name, st1) := ssa u "wmma" st in
            let* a := r_vin st1 u 0 in
            let* b := r_vin st1 u 1 in
            let* c := r_vin st1 u 2 in
            Ok (kk (var_prefix lang d +:+ " " +:+ name
                    +:+ " = __builtin_amdgcn_wmma_f32_16x16x16_f16_w32("
                    +:+ a +:+ ", " +:+ b +:+ ", " +:+ c +:+ ");") st1)
        | None => Err (AssertionError output_dtype_of_HIP_TC)
        end
      else Err NotImplementedError_WMMA
  | _ => Err TypeError
  end.

(** [args in {BinaryOps.ADD, BinaryOps.SUB, BinaryOps.MUL, BinaryOps.XOR}] *)
Definition strips_parens (o : Op) : bool :=
  match o with
  | ADD | SUB | MUL | XOR => true
  | _ => false
  end.

(** The expression of an ALU record.  A payload that is not an operator tag
    is not a key of the operator table. *)
Definition ALU_val (lang : CStyleLanguage) (u : UOp) (d : DType) (st : State)
  : Result string :=
  let* v0 := vin_at u 0 in
  match arg u with
  | ArgOp o =>
      let* f := or_raise (code_for_op lang o) KeyError in
      if bool_decide (uop v0 = ALU) && arg_is_op (arg v0) o && strips_parens o then
        let* x0 := r_get st v0 in
        let* xs := r_all st (drop 1 (vin u)) in
        or_raise (f (strip_parens x0 :: xs) d) TypeError
      else
        let* xs := r_all st (vin u) in
        or_raise (f xs d) TypeError
  | _ => Err KeyError
  end.

(** The test that sends an ALU record to the inline branch *)
Definition ALU_inline (cc : UOp -> Z) (u : UOp) (d : DType) : bool :=
  ((cc u <=? 1) || dtypes_is_int (Some d))
    && negb (arg_is_op (arg u) MAX)
    && (getenv "EXPAND_SSA" =? 0).

Definition render_ALU (lang : CStyleLanguage) (cc : UOp -> Z) (u : UOp) (st : State)
  : Result State :=
  let* d := or_raise (dtype u) (AssertionError no_message) in
  let* val := ALU_val lang u d st in
  let* _ := assert (negb (cc u =? 0)) childless_ALU_op_found in
  if ALU_inline cc u d then Ok (set_r u val st)
  else Ok (declare lang u d "alu" val st).

Definition render_DEFINE_ACC (lang : CStyleLanguage) (u : UOp) (st : State)
  : Result State :=
  let* d := or_raise (dtype u) (AssertionError no_message) in
  let '(name, st1) := ssa u "acc" st in
  match arg u with
  | ArgNum x =>
      let* k := render_const lang x (Some d) in
      Ok (kk (var_prefix lang d +:+ " " +:+ name +:+ " = " +:+ k +:+ ";") st1)
  | _ => Err TypeError
  end.

Definition render_SPECIAL (lang : CStyleLanguage) (u : UOp) (st : State)
  : Result State :=
  match arg u with
  | ArgSpecial axis name size =>
      let xid := if startswith name "g" then gid lang
                 else if startswith name "i" then xid lang else lid lang in
      let* x := or_raise (py_index xid axis) IndexError in
      let st1 := kk (size_prefix lang +:+ " " +:+ name +:+ " = " +:+ x +:+ "; /* "
                     +:+ pretty size +:+ " */") st in
      let st2 :=
        if startswith name "l" then
          {| kernel := kernel st1; prekernel := prekernel st1; bufs := bufs st1;
             local_size := local_size st1 ++ [size]; depth := depth st1;
             c := c st1; r := r st1 |}
        else st1 in
      Ok (set_r u name st2)
  | _ => Err TypeError
  end.

Definition render_CONST (lang : CStyleLanguage) (u : UOp) (st : State)
  : Result State :=
  match arg u with
  | ArgNum x =>
      let* k := render_const lang x (dtype u) in
      Ok (set_r u (if py_ge0 x then k else "(" +:+ k +:+ ")") st)
  | _ => Err TypeError
  end.

Definition render_LOAD (lang : CStyleLanguage) (u : UOp) (st : State)
  : Result State :=
  let* d := or_raise (dtype u) (AssertionError no_message) in
  let* v0 := vin_at u 0 in
  let* buf := r_get st v0 in
  let* idx := r_vin st u 1 in
  let* val := render_load lang d buf (dtype v0) (strip_parens idx)
                (bool_decide (uop v0 = DEFINE_LOCAL)) in
  let* val :=
    (if (3 <? length (vin u))%nat then
       let* cond := r_vin st u 2 in
       let* alt := r_vin st u 3 in
       Ok (render_conditional lang cond val alt)
     else Ok val) in
  Ok (declare lang u d "val" val st).

Definition render_PHI (u : UOp) (st : State) : Result State :=
  let* a := r_vin st u 0 in
  let* b := r_vin st u 1 in
  let st1 := kk (a +:+ " = " +:+ b +:+ ";") st in
  let* a' := r_vin st1 u 0 in
  Ok (set_r u a' st1).

Definition render_STORE (lang : CStyleLanguage) (u : UOp) (st : State)
  : Result State :=
  let* v0 := vin_at u 0 in
  let* buf_dtype := or_raise (dtype v0) (AssertionError no_message) in
  let* v2 := vin_at u 2 in
  let* var_dtype := or_raise (dtype v2) (AssertionError no_message) in
  let guarded := (3 <? length (vin u))%nat in
  let* st1 :=
    (if guarded then
       let* g := r_vin st u 3 in
       Ok (kk (render_if lang g) st)
     else Ok st) in
  let* buf := r_get st1 v0 in
  let* var := r_get st1 v2 in
  let* idx := r_vin st1 u 1 in
  let* stmt := render_store lang buf buf_dtype var var_dtype (strip_parens idx)
                 (bool_decide (uop v0 = DEFINE_LOCAL)) in
  let st2 := kk stmt st1 in
  Ok (if guarded then kk "}" st2 else st2).

(** [isinstance(args, tuple) and args[1]], as a truth value *)
Definition CAST_bitcast (a : Arg) : Result bool :=
  match a with
  | ArgCast _ b => Ok b
  | ArgSpecial _ name _ => Ok (negb (String.eqb name EmptyString))
  | ArgLocal _ size => Ok (negb (size =? 0))
  | ArgWMMA _ => Err TypeError
  | _ => Ok false
  end.

Definition render_CAST (lang : CStyleLanguage) (cc : UOp -> Z) (u : UOp) (d : DType)
    (st : State) : Result State :=
  let* xs := r_all st (vin u) in
  let* bitcast := CAST_bitcast (arg u) in
  let* val := render_cast lang xs d bitcast in
  if cc u <=? 1 then Ok (set_r u val st)
  else Ok (declare lang u d "cast" val st).

Definition render_DEFINE_LOCAL (lang : CStyleLanguage) (u : UOp) (st : State)
  : Result State :=
  match arg u with
  | ArgLocal name size =>
      let st1 :=
        if external_local_bufs lang then
          {| kernel := kernel st;
             prekernel := prekernel st ++ [render_local lang name size];
             bufs := bufs st; local_size := local_size st; depth := depth st;
             c := c st; r := r st |}
        else kk (render_local lang name size) st in
      Ok (set_r u name st1)
  | _ => Err TypeError
  end.

Definition render_DEFINE_GLOBAL (u : UOp) (st : State) : Result State :=
  let* d := or_raise (dtype u) (AssertionError no_message) in
  match arg u with
  | ArgStr name =>
      Ok (set_r u name
            {| kernel := kernel st; prekernel := prekernel st;
               bufs := bufs st ++ [(name, d)]; local_size := local_size st;
               depth := depth st; c := c st; r := r st |})
  | _ => Err TypeError
  end.

Definition render_GEP (u : UOp) (st : State) : Result State :=
  let* v0 := vin_at u 0 in
  let* d0 := or_raise (dtype v0) AttributeError in
  match arg u with
  | ArgNum (NInt i) =>
      let* x := r_get st v0 in
      if 4 <? dt_sz d0 then
        Ok (set_r u ("(" +:+ x +:+ ")[" +:+ pretty i +:+ "]") st)
      else
        let* f := or_raise (py_index ["x"; "y"; "z"; "w"] i) IndexError in
        Ok (set_r u ("(" +:+ x +:+ ")." +:+ f) st)
  | _ => Err TypeError
  end.

(** [raise RuntimeError(f"failed to render {uop}")] *)
Definition failed_to_render (u : UOp) : Result State :=
  Err (RuntimeError_failed_to_render (uop u)).

(** The body of the loop [for u in uops] *)
Definition render_uop (lang : CStyleLanguage) (cc : UOp -> Z) (u : UOp) (st : State)
  : Result State :=
  match uop u with
  | LOOP => render_LOOP lang u st
  | IF => render_IF lang u st
  | BARRIER => render_BARRIER lang st
  | END => render_END st
  | WMMA => render_WMMA lang u st
  | ALU => render_ALU lang cc u st
  | DEFINE_ACC => render_DEFINE_ACC lang u st
  | SPECIAL => render_SPECIAL lang u st
  | CONST => render_CONST lang u st
  | LOAD => render_LOAD lang u st
  | PHI => render_PHI u st
  | STORE => render_STORE lang u st
  | CAST =>
      match dtype u with
      | Some d => render_CAST lang cc u d st
      | None => failed_to_render u
      end
  | DEFINE_LOCAL => render_DEFINE_LOCAL lang u st
  | DEFINE_GLOBAL => render_DEFINE_GLOBAL u st
  | GEP => render_GEP u st
  | UOTHER _ => failed_to_render u
  end.

(** [for u in uops: ...] from the state [st] *)
Fixpoint render_uops (lang : CStyleLanguage) (cc : UOp -> Z) (uops : list UOp)
    (st : State) : Result State :=
  match uops with
  | [] => Ok st
  | u :: rest =>
      let* st' := render_uop lang cc u st in
      render_uops lang cc rest st'
  end.

(** The value of [{}], as the list of its items *)
Definition empty_dict : list (string * DType) := [].

(** [uops_to_cstyle(lang, function_name, uops)] *)
Definition uops_to_cstyle (lang : CStyleLanguage) (function_name : string)
    (uops : list UOp) : Result (string * list (string * DType)) :=
  let* st := render_uops lang (child_count uops) uops initial_state in
  let* src := render_kernel lang function_name (kernel st) (bufs st)
                (local_size st) (prekernel st) in
  Ok (src, empty_dict).

(** ** The profiles *)

(** [CStyleLanguage()]: every field at its default *)
Definition CStyleLanguage_default : CStyleLanguage := {|
  lang_class := CStyleLanguage_cls;
  size_prefix := "int";
  generic_var_prefix := EmptyString;
  kernel_prefix := EmptyString;
  buffer_prefix := EmptyString;
  buffer_suffix := EmptyString;
  smem_align := EmptyString;
  smem_prefix := EmptyString;
  smem_prefix_for_cast := true;
  arg_int_prefix := "const int";
  barrier := EmptyString;
  xid := [];
  gid := [];
  lid := [];
  global_max := [];
  local_max := [];
  extra_args := [];
  float4 := None;
  half_prekernel := None;
  uses_vload := false;
  external_local_bufs := false;
  uses_ptr_arithmetic := false;
  launch_bounds := false;
  code_for_op := CStyle_code_for_op
|}.

(** [[f(i) for i in range(3)]] *)
Definition range3 (f : string -> string) : list string := [f "0"; f "1"; f "2"].
(** the same with [chr(120+i)], which is also ['xyz'[i]] *)
Definition xyz (f : string -> string) : list string := [f "x"; f "y"; f "z"].

(** [OpenCLLanguage()] *)
Definition OpenCL : CStyleLanguage := {|
  lang_class := OpenCLLanguage;
  size_prefix := "int";
  generic_var_prefix := EmptyString;
  kernel_prefix := "__kernel ";
  buffer_prefix := "__global ";
  buffer_suffix := EmptyString;
  smem_align := "__attribute__ ((aligned (16))) ";
  smem_prefix := "__local ";
  smem_prefix_for_cast := true;
  arg_int_prefix := "const int";
  barrier := "barrier(CLK_LOCAL_MEM_FENCE);";
  xid := range3 (fun i => "get_global_id(" +:+ i +:+ ")");
  gid := range3 (fun i => "get_group_id(" +:+ i +:+ ")");
  lid := range3 (fun i => "get_local_id(" +:+ i +:+ ")");
  global_max := [];
  local_max := [];
  extra_args := [];
  float4 := Some "(float4)";
  half_prekernel := Some "#pragma OPENCL EXTENSION cl_khr_fp16 : enable";
  uses_vload := true;
  external_local_bufs := false;
  uses_ptr_arithmetic := false;
  launch_bounds := false;
  code_for_op := dict_update CStyle_code_for_op (fun o =>
    match o with
    | MULACC => Some (ternary (fun a b c _ =>
        "mad(" +:+ a +:+ "," +:+ b +:+ "," +:+ c +:+ ")"))
    | _ => None
    end)
|}.

(** [MetalLanguage()] *)
Definition Metal : CStyleLanguage := {|
  lang_class := MetalLanguage;
  size_prefix := "int";
  generic_var_prefix := EmptyString;
  kernel_prefix :=
    "#include <metal_stdlib>" +:+ newline +:+ "using namespace metal;" +:+ newline +:+ "kernel ";
  buffer_prefix := "device ";
  buffer_suffix := EmptyString;
  smem_align := EmptyString;
  smem_prefix := "threadgroup ";
  smem_prefix_for_cast := true;
  arg_int_prefix := "constant int&";
  barrier := "threadgroup_barrier(mem_flags::mem_threadgroup);";
  xid := [];
  gid := xyz (fun a => "gid." +:+ a);
  lid := xyz (fun a => "lid." +:+ a);
  global_max := [];
  local_max := [];
  extra_args := ["uint3 gid [[threadgroup_position_in_grid]]";
                 "uint3 lid [[thread_position_in_threadgroup]]"];
  float4 := Some "float4";
  half_prekernel := None;
  uses_vload := false;
  external_local_bufs := false;
  uses_ptr_arithmetic := true;
  launch_bounds := false;
  code_for_op := CStyle_code_for_op
|}.

(** [CUDALanguage()] *)
Definition CUDA : CStyleLanguage := {|
  lang_class := CUDALanguage;
  size_prefix := "int";
  generic_var_prefix := EmptyString;
  kernel_prefix :=
    "#define INFINITY (__int_as_float(0x7f800000))" +:+ newline
    +:+ "#define NAN (__int_as_float(0x7fffffff))" +:+ newline +:+ "extern " +:+ dquote +:+ "C"
    +:+ dquote +:+ " __global__ ";
  buffer_prefix := EmptyString;
  buffer_suffix := EmptyString;
  smem_align := EmptyString;
  smem_prefix := "__shared__ ";
  smem_prefix_for_cast := false;
  arg_int_prefix := "const int";
  barrier := "__syncthreads();";
  xid := xyz (fun a => "(blockIdx." +:+ a +:+ "*blockDim." +:+ a +:+ "+threadIdx."
                       +:+ a +:+ ")");
  gid := xyz (fun a => "blockIdx." +:+ a);
  lid := xyz (fun a => "threadIdx." +:+ a);
  global_max := [];
  local_max := [];
  extra_args := [];
  float4 := Some "make_float4";
  half_prekernel := Some (
    newline +:+ "    #include <cuda_fp16.h>" +:+ newline
    +:+ "    struct half4 { half x, y, z, w; };" +:+ newline
    +:+ "    __device__ half4 make_half4(half x, half y, half z, half w) { half4 ret; ret.x = x; ret.y = y; ret.z = z; ret.w = w; return ret; }"
    +:+ newline +:+ "  ");
  uses_vload := false;
  external_local_bufs := false;
  uses_ptr_arithmetic := false;
  launch_bounds := false;
  code_for_op := dict_update CStyle_code_for_op code_for_op_half
|}.

(** [HIPLanguage()] *)
Definition HIP : CStyleLanguage := {|
  lang_class := HIPLanguage;
  size_prefix := "int";
  generic_var_prefix := EmptyString;
  kernel_prefix :=
    "#include <hip/hip_common.h>" +:+ newline +:+ "#define INFINITY (__builtin_inff())" +:+ newline
    +:+ "#define NAN (__builtin_nanf(" +:+ dquote +:+ dquote +:+ "))" +:+ newline
    +:+ "  typedef float float8 __attribute__((ext_vector_type(8)));" +:+ newline
    +:+ "  __device__ float8 make_float8(float x, float y, float z, float w, float a, float b, float c, float d) { return {x, y, z, w, a, b, c, d}; }"
    +:+ newline +:+ "  extern " +:+ dquote +:+ "C" +:+ dquote +:+ " __global__" +:+ newline +:+ "  ";
  buffer_prefix := EmptyString;
  buffer_suffix := EmptyString;
  smem_align := EmptyString;
  smem_prefix := "__shared__ ";
  smem_prefix_for_cast := false;
  arg_int_prefix := "const int";
  barrier := "__syncthreads();";
  xid := xyz (fun a => "(blockIdx." +:+ a +:+ "*blockDim." +:+ a +:+ "+threadIdx."
                       +:+ a +:+ ")");
  gid := xyz (fun a => "blockIdx." +:+ a);
  lid := xyz (fun a => "threadIdx." +:+ a);
  global_max := [];
  local_max := [];
  extra_args := [];
  float4 := Some "make_float4";
  half_prekernel := Some (
    "#include <hip/hip_fp16.h>" +:+ newline +:+ newline
    +:+ "typedef union { struct { half x, y, z, w; } __attribute__((aligned(8))); half data[4]; } half4;"
    +:+ newline
    +:+ "__device__ half4 make_half4(half x, half y, half z, half w) { return {x, y, z, w}; }"
    +:+ newline
    +:+ "typedef union { struct { half x, y, z, w, a, b, c, d; } __attribute__((aligned(16))); half data[8]; } half8;"
    +:+ newline
    +:+ "__device__ half8 make_half8(half x, half y, half z, half w, half a, half b, half c, half d) { return {x, y, z, w, a, b, c, d}; }"
    +:+ newline +:+ " typedef _Float16 half16 __attribute__((ext_vector_type(16)));" +:+ newline
    +:+ "__device__ half16 make_half16(half x, half y, half z, half w, half a, half b, half c, half d,"
    +:+ newline
    +:+ "                              half e, half f, half g, half h, half i, half j, half k, half l) {"
    +:+ newline
    +:+ "                                return {x, y, z, w, a, b, c, d, e, f, g, h, i, j, k, l}; }"
    +:+ newline +:+ "  ");
  uses_vload := false;
  external_local_bufs := false;
  uses_ptr_arithmetic := true;
  launch_bounds := true;
  code_for_op := dict_update CStyle_code_for_op code_for_op_half
|}.

(** [WGSLLanguage()] *)
Definition WGSL : CStyleLanguage := {|
  lang_class := WGSLLanguage;
  size_prefix := "let";
  generic_var_prefix := "var ";
  kernel_prefix := EmptyString;
  buffer_prefix := EmptyString;
  buffer_suffix := EmptyString;
  smem_align := EmptyString;
  smem_prefix := EmptyString;
  smem_prefix_for_cast := true;
  arg_int_prefix := "const int";
  barrier := "workgroupBarrier();";
  xid := [];
  gid := xyz (fun a => "i32(gindex." +:+ a +:+ ")");
  lid := xyz (fun a => "i32(lindex." +:+ a +:+ ")");
  global_max := [];
  local_max := [];
  extra_args := [];
  float4 := None;
  half_prekernel := None;
  uses_vload := false;
  external_local_bufs := true;
  uses_ptr_arithmetic := false;
  launch_bounds := false;
  code_for_op := dict_update CStyle_code_for_op (fun o =>
    match o with
    | CMPLT => Some (binary (fun x y _ => "f32(" +:+ x +:+ "<" +:+ y +:+ ")"))
    | MULACC => Some (ternary (fun x y z _ =>
        "fma(" +:+ x +:+ "," +:+ y +:+ "," +:+ z +:+ ")"))
    | WHERE => Some (ternary (fun a b c _ =>
        "select(" +:+ c +:+ "," +:+ b +:+ ",bool(" +:+ a +:+ "))"))
    | _ => None
    end)
|}.

(** The six classes, each with the instance the module builds of it *)
Definition profiles : list CStyleLanguage :=
  [CStyleLanguage_default; OpenCL; Metal; CUDA; HIP; WGSL].

End Renderer.

(** ** An implementation of the imported interface

    Modelled from the spec: an implementation of [Helpers] after section 3 of
    the specification, for evaluating the renderer on examples.  A semantic
    type is a scalar kind, named as in C, with a vector width; a buffer has a
    pointer type, a texture the image type.  Two types are equal when name
    and width agree.  No environment variable is set.  The only floats are
    those with an integer value, written with one decimal. *)
Module Tiny.

Record dtype_t := mk_dtype {
  t_name : string;
  t_sz : Z;
  t_ptr : bool;
  t_image : bool
}.

Definition scalar_type (name : string) : dtype_t :=
  {| t_name := name; t_sz := 1; t_ptr := false; t_image := false |}.

Definition bool_ := scalar_type "bool".
Definition int8 := scalar_type "char".
Definition int16 := scalar_type "short".
Definition int32 := scalar_type "int".
Definition int64 := scalar_type "long".
Definition uint8 := scalar_type "unsigned char".
Definition uint16 := scalar_type "unsigned short".
Definition uint32 := scalar_type "unsigned int".
Definition uint64 := scalar_type "unsigned long".
Definition float16 := scalar_type "half".
Definition float32 := scalar_type "float".

Definition t_eqb (a b : dtype_t) : bool :=
  String.eqb (t_name a) (t_name b) && (t_sz a =? t_sz b).

(** [PtrDType(d)] *)
Definition ptr (d : dtype_t) : dtype_t :=
  {| t_name := t_name d; t_sz := t_sz d; t_ptr := true; t_image := false |}.

(** the image type *)
Definition imagef : dtype_t :=
  {| t_name := "imagef"; t_sz := 1; t_ptr := false; t_image := true |}.

Definition vec (d : dtype_t) (n : Z) : dtype_t :=
  {| t_name := t_name d +:+ pretty n; t_sz := n; t_ptr := false; t_image := false |}.

Definition scalar (d : dtype_t) : dtype_t :=
  if 1 <? t_sz d then
    scalar_type (substring 0 (String.length (t_name d)
                              - String.length (pretty (t_sz d))) (t_name d))
  else d.

Definition is_int (d : option dtype_t) : bool :=
  match d with
  | Some x => existsb (t_eqb x) [int8; int16; int32; int64; uint8; uint16; uint32; uint64]
  | None => false
  end.

Definition is_float (d : option dtype_t) : bool :=
  match d with
  | Some x => existsb (t_eqb x) [float16; float32]
  | None => false
  end.

(** [fst[1:-1]] when [fst] is wrapped in one pair of parentheses that match
    each other, [fst] otherwise *)
Definition find (s : string) (ch : string) : Z :=
  match index 0 ch s with
  | Some n => Z.of_nat n
  | None => -1
  end.

Definition strip (s : string) : string :=
  let n := String.length s in
  let inner := substring 1 (n - 2) s in
  if String.prefix "(" s && (2 <=? n)%nat
     && String.eqb (substring (n - 1) 1 s) ")"
     && (find inner "(" <=? find inner ")")
  then inner else s.

#[global] Instance helpers : Helpers := {|
  DType := dtype_t;
  dt_name := t_name;
  dt_sz := t_sz;
  dt_eqb := t_eqb;
  dt_scalar := scalar;
  dt_vec := vec;
  is_ImageDType := t_image;
  is_PtrDType := t_ptr;
  dtypes_bool := bool_;
  dtypes_int := int32;
  dtypes_int32 := int32;
  dtypes_uint8 := uint8;
  dtypes_uint16 := uint16;
  dtypes_uint32 := uint32;
  dtypes_uint64 := uint64;
  dtypes_half := float16;
  dtypes_float16 := float16;
  dtypes_float := float32;
  dtypes_is_int := is_int;
  dtypes_is_float := is_float;
  strip_parens := strip;
  getenv := fun _ => 0;
  prod := fold_right Z.mul 1;
  Finite := Z;
  fin_repr := fun x => pretty x +:+ ".0";
  fin_negative := fun x => x <? 0;
  fin_int := fun x => x;
  fin_bool := fun x => negb (x =? 0);
  float_of_int := fun n => Some n;
  float_of_bool := fun b => if b then 1 else 0
|}.

End Tiny.

(** ** Notions used in the statements *)

Section Notions.
Context `{H : Helpers}.

(** The signature entry a record declares: the name and type of a
    DEFINE_GLOBAL record. *)
Definition global_decl (u : UOp) : option (string * DType) :=
  match uop u, arg u, dtype u with
  | DEFINE_GLOBAL, ArgStr name, Some d => Some (name, d)
  | _, _, _ => None
  end.

(** The buffers a sequence declares, in the order of the sequence *)
Definition declared_buffers (uops : list UOp) : list (string * DType) :=
  omap global_decl uops.

(** The number of records of a sequence whose kind satisfies [p] *)
Fixpoint count_kind (p : UOps -> bool) (uops : list UOp) : Z :=
  match uops with
  | [] => 0
  | u :: rest => (if p (uop u) then 1 else 0) + count_kind p rest
  end.

Definition opens_scope (k : UOps) : bool :=
  match k with
  | LOOP | IF => true
  | _ => false
  end.

Definition closes_scope (k : UOps) : bool :=
  match k with
  | END => true
  | _ => false
  end.

(** Every LOOP or IF has a matching END and every END a matching open:
    [open] counts the scopes that are open before the sequence. *)
Fixpoint balanced_from (open : nat) (uops : list UOp) : bool :=
  match uops with
  | [] => bool_decide (open = 0%nat)
  | u :: rest =>
      if opens_scope (uop u) then balanced_from (S open) rest
      else if closes_scope (uop u) then
        match open with
        | O => false
        | S n => balanced_from n rest
        end
      else balanced_from open rest
  end.

Definition balanced (uops : list UOp) : bool := balanced_from 0 uops.

(** The materialization rule of an ALU record in the words of the
    specification: use-count above 1, result type not an integer type,
    operator not max, and a condition [override] on the expansion override. *)
Definition spec_materialize (cc : UOp -> Z) (u : UOp) (d : DType) (override : bool)
  : bool :=
  (1 <? cc u) && negb (dtypes_is_int (Some d)) && negb (arg_is_op (arg u) MAX)
    && override.

(** What one record does to the signature list and to the nesting depth *)
Definition scope_delta (k : UOps) : Z :=
  if opens_scope k then 1 else if closes_scope k then -1 else 0.

Definition decl_list (u : UOp) : list (string * DType) :=
  match global_decl u with
  | Some b => [b]
  | None => []
  end.

(** The line [f"{prefix} {name} = {val};"] of a declaration *)
Definition decl_line (lang : CStyleLanguage) (d : DType) (name val : string) : string :=
  var_prefix lang d +:+ " " +:+ name +:+ " = " +:+ val +:+ ";".

(** The indentation of a line emitted in state [st] *)
Definition indent (st : State) : string := str_mul "  " (depth st).

(** ** Notions for the whole pass *)

(** What a pass may do to the state it starts from: lines are added at the
    end of the two text buffers, a name counter does not go down, and an
    entry of the symbol table stays. *)
Definition extends (st st' : State) : Prop :=
  (exists lines, kernel st' = (kernel st ++ lines)%list)
  /\ (exists lines, prekernel st' = (prekernel st ++ lines)%list)
  /\ (forall prefix, counter st prefix <= counter st' prefix)
  /\ (forall k, is_Some (r st !! k) -> is_Some (r st' !! k)).

(** The kinds whose arm binds the symbol table entry of the record *)
Definition binds_entry (k : UOps) : bool :=
  match k with
  | IF | BARRIER | END | STORE | UOTHER _ => false
  | _ => true
  end.

(** The extent a record adds to [local_size]: that of a SPECIAL record
    whose name starts with ["l"] *)
Definition local_extent (u : UOp) : list Z :=
  match uop u, arg u with
  | SPECIAL, ArgSpecial _ name size => if startswith name "l" then [size] else []
  | _, _ => []
  end.

(** Some record of the sequence has [u] among its operands. *)
Definition used_in (uops : list UOp) (u : UOp) : Prop :=
  exists ru v, In ru uops /\ In v (vin ru) /\ uid v = uid u.

End Notions.

(** ** Example records *)

Module Ex.
Import Tiny.

Definition f32x4 : DType := vec float32 4.
Definition f32x8 : DType := vec float32 8.

(** three buffers *)
Definition bufA : UOp := mkUOp 0 DEFINE_GLOBAL (Some (ptr float32)) [] (ArgStr "A").
Definition bufB : UOp := mkUOp 1 DEFINE_GLOBAL (Some (ptr float32)) [] (ArgStr "B").
Definition bufC : UOp := mkUOp 2 DEFINE_GLOBAL (Some (ptr float32)) [] (ArgStr "C").

(** constants *)
Definition zero : UOp := mkUOp 3 CONST (Some int32) [] (ArgNum (NInt 0)).
Definition one : UOp := mkUOp 4 CONST (Some float32) [] (ArgNum (NInt 1)).
Definition yes : UOp := mkUOp 5 CONST (Some bool_) [] (ArgNum (NBool true)).

(** [x = A[0]] and [y = B[0]] *)
Definition loadA : UOp := mkUOp 6 LOAD (Some float32) [bufA; zero] ArgNone.
Definition loadB : UOp := mkUOp 7 LOAD (Some float32) [bufB; zero] ArgNone.

(** [max(x, y)], [x + y] *)
Definition maxAB : UOp := mkUOp 8 ALU (Some float32) [loadA; loadB] (ArgOp MAX).
Definition addAB : UOp := mkUOp 9 ALU (Some float32) [loadA; loadB] (ArgOp ADD).

(** [C[0] = max(x, y)]; the same store under the guard [yes] *)
Definition storeMax : UOp := mkUOp 10 STORE None [bufC; zero; maxAB] ArgNone.

(** [C[0] = x + y] and [C[0] = (x + y) + (x + y)] *)
Definition storeAdd : UOp := mkUOp 12 STORE None [bufC; zero; addAB] ArgNone.
Definition twice : UOp := mkUOp 13 ALU (Some float32) [addAB; addAB] (ArgOp ADD).
Definition storeTwice : UOp := mkUOp 14 STORE None [bufC; zero; twice] ArgNone.

(** control records *)
Definition endScope : UOp := mkUOp 15 END None [] ArgNone.
Definition ifYes : UOp := mkUOp 16 IF None [yes] ArgNone.

(** a cast without a result type, and a record of a kind without an arm *)
Definition castNone : UOp := mkUOp 17 CAST None [one] ArgNone.
Definition unknown : UOp := mkUOp 18 (UOTHER "NOOP") None [] ArgNone.


(** an addition that nothing uses *)
Definition deadAdd : UOp := mkUOp 20 ALU (Some float32) [one; one] (ArgOp ADD).

(** constants below zero and without a value *)
Definition minusOne : UOp := mkUOp 21 CONST (Some int32) [] (ArgNum (NInt (-1))).
Definition nanConst : UOp := mkUOp 22 CONST (Some float32) [] (ArgNum (NFloat FNan)).

(** [(int)(x)], used twice *)
Definition castInt : UOp := mkUOp 23 CAST (Some int32) [loadA] ArgNone.

(** an accumulator and its update with [x] *)
Definition acc : UOp := mkUOp 24 DEFINE_ACC (Some float32) [] (ArgNum (NInt 0)).
Definition phi : UOp := mkUOp 25 PHI (Some float32) [acc; loadA] ArgNone.

(** a vector of width four and its components *)
Definition vec4 : UOp := mkUOp 26 CAST (Some f32x4) [one; one; one; one] ArgNone.
Definition gep (i : Z) : UOp := mkUOp 27 GEP (Some float32) [vec4] (ArgNum (NInt i)).

(** thread indices *)
Definition gidx0 : UOp := mkUOp 28 SPECIAL (Some int32) [] (ArgSpecial 0 "gidx0" 16).
Definition lidx0 : UOp := mkUOp 29 SPECIAL (Some int32) [] (ArgSpecial 0 "lidx0" 8).
Definition lidx1 : UOp := mkUOp 30 SPECIAL (Some int32) [] (ArgSpecial 1 "lidx1" 4).
Definition idx0 : UOp := mkUOp 31 SPECIAL (Some int32) [] (ArgSpecial 0 "idx0" 16).

(** a local buffer *)
Definition temp : UOp := mkUOp 32 DEFINE_LOCAL (Some (ptr float32)) [] (ArgLocal "temp" 32).

(** signatures: a float buffer with an integer, and a buffer of vectors *)
Definition floatSig : list (string * DType) := [("A", ptr float32); ("n", int32)].
Definition vectorSig : list (string * DType) := [("A", ptr f32x4)].

(** an operator no table has an entry for *)
Definition recip : UOp := mkUOp 33 ALU (Some float32) [one] (ArgOp (OtherOp "RECIP")).

(** [C[0] = max(A[0], B[0])] *)
Definition max_kernel : list UOp :=
  [bufA; bufB; bufC; zero; loadA; loadB; maxAB; storeMax].

(** the three buffers again, as they are declared in [max_kernel] *)
Definition ABC : list (string * DType) :=
  [("A", ptr float32); ("B", ptr float32); ("C", ptr float32)].

(** The state a pass of the OpenCL profile over [uops] ends in; the initial
    state when the pass fails. *)
Definition state_after (cc : UOp -> Z) (uops : list UOp) : State :=
  match render_uops OpenCL cc uops initial_state with
  | Ok st => st
  | Err _ => initial_state
  end.

(** the states of the examples, evaluated *)
Definition stBufs : State :=
  Eval vm_compute in state_after (fun _ => 1) [bufA; bufB; zero].
Definition stLoadA : State :=
  Eval vm_compute in state_after (fun _ => 1) [bufA; bufB; zero; loadA].
Definition stLoadB : State :=
  Eval vm_compute in state_after (fun _ => 1) [bufA; bufB; zero; loadA; loadB].
Definition stLoads : State :=
  Eval vm_compute in
    state_after (child_count max_kernel) [bufA; bufB; bufC; zero; loadA; loadB].
Definition stMax : State :=
  Eval vm_compute in state_after (child_count max_kernel) max_kernel.
Definition stCastInline : State :=
  Eval vm_compute in state_after (fun _ => 1) [bufA; bufB; zero; loadA; castInt].
Definition stCastDeclared : State :=
  Eval vm_compute in state_after (fun _ => 2) [bufA; bufB; zero; loadA; castInt].
Definition stAcc : State :=
  Eval vm_compute in state_after (fun _ => 1) [bufA; zero; acc; loadA].
Definition stPhi : State :=
  Eval vm_compute in state_after (fun _ => 1) [bufA; zero; acc; loadA; phi].
Definition stVec : State :=
  Eval vm_compute in state_after (fun _ => 1) [one; vec4].

End Ex.

(** * Properties *)

(** ** Reasoning about [Result] *)

Lemma bind_Ok {A B} (m : Result A) (f : A -> Result B) (b : B) :
  bind m f = Ok b -> exists a, m = Ok a /\ f a = Ok b.
Proof. destruct m as [a|e]; simpl; [eauto | discriminate]. Qed.

Lemma or_raise_Ok {A} (o : option A) (e : Error) (a : A) :
  or_raise o e = Ok a -> o = Some a.
Proof. destruct o; simpl; congruence. Qed.

Lemma assert_Ok (b : bool) (msg : AssertMsg) (x : unit) :
  assert b msg = Ok x -> b = true.
Proof. destruct b; simpl; congruence. Qed.

(** ** Casts *)

Section Casts.
Context `{H : Helpers}.

(** Without [bitcast], every class but WGSL runs the base method. *)
Lemma render_cast_base (lang : CStyleLanguage) (x : list string) (d : DType) :
  lang_class lang <> WGSLLanguage ->
  render_cast lang x d false = CStyle_render_cast lang x d false.
Proof. unfold render_cast. destruct (lang_class lang); congruence. Qed.

End Casts.

(** C3, as amended.  On every profile but WGSL a cast without [bitcast] of a
    single operand is a type-name cast whatever the width of the target
    type is; with any other number [N] of operands it raises the assertion
    error "cast is wrong size" when [N] differs from the width [W] of the
    target type, so that it succeeds only when [N = W]. *)
Theorem render_cast_width `{H : Helpers} (lang : CStyleLanguage) (x : list string)
    (d : DType) :
  lang_class lang <> WGSLLanguage ->
  (forall x0, x = [x0] ->
     render_cast lang x d false = Ok ("(" +:+ dt_name d +:+ ")(" +:+ x0 +:+ ")"))
  /\ (length x <> 1%nat -> Z.of_nat (length x) <> dt_sz d ->
        render_cast lang x d false = Err (AssertionError cast_is_wrong_size))
  /\ (length x <> 1%nat -> forall s,
        render_cast lang x d false = Ok s -> Z.of_nat (length x) = dt_sz d).
Proof.
  intros Hcls. rewrite render_cast_base by assumption.
  unfold CStyle_render_cast. split; [|split].
  - intros x0 ->. reflexivity.
  - intros Hlen Hsz.
    destruct (Z.of_nat (length x) =? 1) eqn:E1; [apply Z.eqb_eq in E1; lia|].
    destruct (Z.of_nat (length x) =? dt_sz d) eqn:E2; [apply Z.eqb_eq in E2; lia|].
    reflexivity.
  - intros Hlen s.
    destruct (Z.of_nat (length x) =? 1) eqn:E1; [apply Z.eqb_eq in E1; lia|].
    destruct (Z.of_nat (length x) =? dt_sz d) eqn:E2.
    + intros _. by apply Z.eqb_eq.
    + simpl. discriminate.
Qed.

(** Two operands for a type of width four are refused; four are accepted. *)
Lemma render_cast_width_witness :
  render_cast OpenCL ["x"; "y"] Ex.f32x4 false = Err (AssertionError cast_is_wrong_size)
  /\ render_cast OpenCL ["x"; "y"; "z"; "w"] Ex.f32x4 false = Ok "(float4)(x,y,z,w)".
Proof.
  split.
  - destruct (render_cast_width OpenCL ["x"; "y"] Ex.f32x4) as (_ & Hw & _);
      [discriminate|].
    apply Hw; simpl; lia.
  - reflexivity.
Defined.

(** C3 as stated fails: one operand is accepted for a type of width four. *)
Lemma render_cast_one_operand_any_width :
  length ["x"] = 1%nat /\ dt_sz Ex.f32x4 = 4
  /\ render_cast CStyleLanguage_default ["x"] Ex.f32x4 false = Ok "(float4)(x)".
Proof. repeat split. Qed.

(** ** The loop over the records *)

Section Loop.
Context `{H : Helpers}.

Lemma render_uops_app (lang : CStyleLanguage) (cc : UOp -> Z) (l1 l2 : list UOp)
    (st : State) :
  render_uops lang cc (l1 ++ l2) st
  = bind (render_uops lang cc l1 st) (render_uops lang cc l2).
Proof.
  revert st. induction l1 as [|u l1 IH]; intros st; simpl; [reflexivity|].
  destruct (render_uop lang cc u st) as [st'|e]; simpl; [apply IH | reflexivity].
Qed.

(** A record that cannot be rendered in any state makes every sequence that
    contains it fail. *)
Lemma render_uops_stuck (lang : CStyleLanguage) (cc : UOp -> Z) (u : UOp)
    (uops : list UOp) :
  (forall st, exists e, render_uop lang cc u st = Err e) ->
  In u uops ->
  forall st, exists e, render_uops lang cc uops st = Err e.
Proof.
  intros Hu. induction uops as [|v rest IH]; intros Hin st; [destruct Hin|].
  simpl. destruct (render_uop lang cc v st) as [st'|e] eqn:Ev; simpl; [|eauto].
  destruct Hin as [->|Hin]; [|by apply IH].
  destruct (Hu st) as [e He]. congruence.
Qed.

Lemma uops_to_cstyle_stuck (lang : CStyleLanguage) (name : string) (uops : list UOp) :
  (exists e, render_uops lang (child_count uops) uops initial_state = Err e) ->
  exists e, uops_to_cstyle lang name uops = Err e.
Proof. intros [e He]. exists e. unfold uops_to_cstyle. by rewrite He. Qed.

End Loop.

(** Take a successful computation apart: every [let*], test and case
    distinction the result went through. *)
Ltac step_cases :=
  repeat match goal with
    | H : Ok _ = Ok _ |- _ => injection H as <-
    | H : Err _ = Ok _ |- _ => discriminate H
    | H : or_raise _ _ = Ok _ |- _ => apply or_raise_Ok in H
    | H : assert _ _ = Ok _ |- _ => apply assert_Ok in H
    | H : bind ?m _ = Ok _ |- _ =>
        let E := fresh "E" in
        destruct m eqn:E; simpl in H; [|discriminate H]
    | H : (let '(_, _) := ?p in _) = Ok _ |- _ =>
        let E := fresh "E" in destruct p eqn:E
    | H : match ?x with _ => _ end = Ok _ |- _ =>
        let E := fresh "E" in destruct x eqn:E; try discriminate H
    end.

(** Close a goal about the fields of the state an arm returns. *)
Ltac frame_done :=
  repeat match goal with
    | |- context [if ?b then _ else _] => destruct b
    end;
  simpl; rewrite ?app_nil_r; split; (reflexivity || lia).

Section Frame.
Context `{H : Helpers}.

Lemma render_uop_frame (lang : CStyleLanguage) (cc : UOp -> Z) (u : UOp)
    (st st' : State) :
  render_uop lang cc u st = Ok st' ->
  bufs st' = (bufs st ++ decl_list u)%list
  /\ depth st' = depth st + scope_delta (uop u).
Proof.
  unfold render_uop, decl_list, global_decl, scope_delta.
  destruct (uop u) eqn:Ek; simpl; intros Hr.
  all: try (unfold failed_to_render in Hr; destruct (dtype u); discriminate Hr).
  - unfold render_LOOP, ssa in Hr. step_cases; frame_done.
  - unfold render_IF in Hr. step_cases; frame_done.
  - unfold render_BARRIER in Hr. step_cases; frame_done.
  - unfold render_END in Hr. step_cases; frame_done.
  - unfold render_WMMA, ssa in Hr. step_cases; frame_done.
  - unfold render_ALU, declare, ssa in Hr. step_cases; frame_done.
  - unfold render_DEFINE_ACC, ssa in Hr. step_cases; frame_done.
  - unfold render_SPECIAL in Hr. step_cases; frame_done.
  - unfold render_CONST in Hr. step_cases; frame_done.
  - unfold render_LOAD, declare, ssa in Hr. step_cases; frame_done.
  - unfold render_PHI in Hr. step_cases; frame_done.
  - unfold render_STORE in Hr. step_cases; frame_done.
  - destruct (dtype u) eqn:Ed; [|discriminate Hr].
    unfold render_CAST, declare, ssa in Hr.
    step_cases; destruct (arg u); frame_done.
  - unfold render_DEFINE_LOCAL in Hr. step_cases; frame_done.
  - unfold render_DEFINE_GLOBAL in Hr. step_cases. rewrite E. frame_done.
  - unfold render_GEP in Hr. step_cases; frame_done.
Qed.

End Frame.

(** ** The buffer signature *)

Section Signature.
Context `{H : Helpers}.

Lemma declared_buffers_cons (u : UOp) (uops : list UOp) :
  declared_buffers (u :: uops) = (decl_list u ++ declared_buffers uops)%list.
Proof.
  unfold declared_buffers, decl_list. simpl. by destruct (global_decl u).
Qed.

Lemma render_uops_bufs (lang : CStyleLanguage) (cc : UOp -> Z) (uops : list UOp)
    (st st' : State) :
  render_uops lang cc uops st = Ok st' ->
  bufs st' = (bufs st ++ declared_buffers uops)%list.
Proof.
  revert st. induction uops as [|u rest IH]; intros st Hr; simpl in Hr.
  - injection Hr as <-. unfold declared_buffers. simpl. by rewrite app_nil_r.
  - apply bind_Ok in Hr. destruct Hr as (st1 & H1 & Hr).
    apply render_uop_frame in H1. destruct H1 as [Hb _].
    rewrite (IH _ Hr), Hb, declared_buffers_cons. by rewrite <- app_assoc.
Qed.

End Signature.

(** C1, as amended.  When a render call succeeds, the buffer signature list
    it has built and hands to [render_kernel], from which the parameters of
    the kernel are written, holds the name and type of the DEFINE_GLOBAL
    records in the order of the sequence, whatever else the sequence holds
    and however often a buffer is used.  The call returns the kernel text
    together with an empty dictionary. *)
Theorem signature_in_declaration_order `{H : Helpers} (lang : CStyleLanguage)
    (function_name : string) (uops : list UOp)
    (res : string * list (string * DType)) :
  uops_to_cstyle lang function_name uops = Ok res ->
  exists st,
    render_uops lang (child_count uops) uops initial_state = Ok st
    /\ bufs st = declared_buffers uops
    /\ render_kernel lang function_name (kernel st) (declared_buffers uops)
         (local_size st) (prekernel st) = Ok (fst res)
    /\ snd res = [].
Proof.
  unfold uops_to_cstyle. intros Hr.
  apply bind_Ok in Hr. destruct Hr as (st & Hst & Hr).
  apply bind_Ok in Hr. destruct Hr as (src & Hsrc & Hr).
  injection Hr as <-. exists st.
  pose proof (render_uops_bufs _ _ _ _ _ Hst) as Hb. simpl in Hb.
  rewrite <- Hb. repeat split; assumption.
Qed.

(** The kernel [C[0] = max(A[0], B[0])] is rendered with the signature
    [A, B, C]. *)
Lemma signature_in_declaration_order_witness :
  exists st,
    render_uops OpenCL (child_count Ex.max_kernel) Ex.max_kernel initial_state = Ok st
    /\ bufs st = Ex.ABC.
Proof.
  destruct (uops_to_cstyle OpenCL "k" Ex.max_kernel) as [res|e] eqn:E;
    [|vm_compute in E; discriminate E].
  destruct (signature_in_declaration_order OpenCL "k" Ex.max_kernel res E)
    as (st & Hst & Hb & _).
  exists st. split; [exact Hst|]. rewrite Hb. reflexivity.
Defined.

(** C1 as stated fails: three buffers are declared, the call succeeds, and
    what it returns beside the kernel text is empty. *)
Lemma returned_signature_is_empty :
  declared_buffers [Ex.bufA; Ex.bufB; Ex.bufC] = Ex.ABC
  /\ exists src,
       uops_to_cstyle OpenCL "k" [Ex.bufA; Ex.bufB; Ex.bufC] = Ok (src, [])
       /\ ([] : list (string * DType)) <> Ex.ABC.
Proof.
  split; [reflexivity|]. eexists. split; [vm_compute; reflexivity | discriminate].
Qed.

(** ** Control scope *)

(** C4, as amended.  The renderer does not look for unbalanced control scope.
    An END record never fails: it lowers the depth by one and emits a closing
    brace at the new depth, whether or not a scope is open.  After a pass
    that succeeds the depth is the depth before it, plus the number of LOOP
    and IF records, minus the number of END records; nothing compares it
    with the depth at the start. *)
Theorem control_scope_is_not_checked `{H : Helpers} (lang : CStyleLanguage)
    (cc : UOp -> Z) :
  (forall u st, uop u = END ->
     exists st', render_uop lang cc u st = Ok st'
       /\ depth st' = depth st - 1
       /\ kernel st' = (kernel st ++ [str_mul "  " (depth st - 1) +:+ "}"])%list)
  /\ (forall uops st st', render_uops lang cc uops st = Ok st' ->
        depth st' = depth st + count_kind opens_scope uops
                    - count_kind closes_scope uops).
Proof.
  split.
  - intros u st Hk. unfold render_uop. rewrite Hk. eexists. split; [reflexivity|].
    simpl. split; [lia | reflexivity].
  - induction uops as [|u rest IH]; intros st st' Hr; simpl in Hr.
    + injection Hr as <-. simpl. lia.
    + apply bind_Ok in Hr. destruct Hr as (st1 & H1 & Hr).
      apply render_uop_frame in H1. destruct H1 as [_ Hd].
      rewrite (IH _ _ Hr), Hd. unfold scope_delta. simpl.
      destruct (uop u); simpl; lia.
Qed.

(** A lone END and an IF that is never closed are rendered; the depth ends
    at 0 and at 2. *)
Lemma control_scope_is_not_checked_witness :
  (exists st, render_uops OpenCL (fun _ => 0) [Ex.endScope] initial_state = Ok st
              /\ depth st = 0)
  /\ (exists st, render_uops OpenCL (fun _ => 0) [Ex.yes; Ex.ifYes] initial_state = Ok st
                 /\ depth st = 2).
Proof.
  destruct (control_scope_is_not_checked OpenCL (fun _ => 0)) as [_ Hd].
  split.
  - destruct (render_uops OpenCL (fun _ => 0) [Ex.endScope] initial_state)
      as [st|e] eqn:E; [|vm_compute in E; discriminate E].
    exists st. split; [reflexivity|]. rewrite (Hd _ _ _ E). reflexivity.
  - destruct (render_uops OpenCL (fun _ => 0) [Ex.yes; Ex.ifYes] initial_state)
      as [st|e] eqn:E; [|vm_compute in E; discriminate E].
    exists st. split; [reflexivity|]. rewrite (Hd _ _ _ E). reflexivity.
Defined.

(** C4 as stated fails: a sequence with an END that closes nothing and a
    sequence with an IF that nothing closes are both rendered without an
    error. *)
Lemma unbalanced_scope_is_rendered :
  balanced [Ex.endScope] = false
  /\ is_Ok (uops_to_cstyle OpenCL "k" [Ex.endScope]) = true
  /\ balanced [Ex.yes; Ex.ifYes] = false
  /\ is_Ok (uops_to_cstyle OpenCL "k" [Ex.yes; Ex.ifYes]) = true.
Proof. repeat split; vm_compute; reflexivity. Qed.

(** ** Records the dispatch refuses *)

(** C10.  A CAST record without a result type is not rendered as a cast: in
    every state it raises the error "failed to render" with its kind, which
    is the error a record of a kind without an arm raises.  A pass stops
    with that error at the first such record it reaches, and a render call
    on a sequence that holds one fails. *)
Theorem cast_without_type_is_not_rendered `{H : Helpers} (lang : CStyleLanguage)
    (cc : UOp -> Z) (u : UOp) :
  uop u = CAST -> dtype u = None ->
  (forall st, render_uop lang cc u st = failed_to_render u)
  /\ failed_to_render u = Err (RuntimeError_failed_to_render CAST)
  /\ (forall v name st, uop v = UOTHER name ->
        render_uop lang cc v st = failed_to_render v
        /\ failed_to_render v = Err (RuntimeError_failed_to_render (UOTHER name)))
  /\ (forall pre post st0 st, render_uops lang cc pre st0 = Ok st ->
        render_uops lang cc (pre ++ u :: post) st0
        = Err (RuntimeError_failed_to_render CAST))
  /\ (forall function_name uops, In u uops ->
        exists e, uops_to_cstyle lang function_name uops = Err e).
Proof.
  intros Hk Hd.
  assert (Hst : forall cc' st,
             render_uop lang cc' u st = Err (RuntimeError_failed_to_render CAST)).
  { intros cc' st. unfold render_uop, failed_to_render. by rewrite Hk, Hd. }
  split; [|split; [|split; [|split]]].
  - intros st. unfold render_uop. by rewrite Hk, Hd.
  - unfold failed_to_render. by rewrite Hk.
  - intros v name st Hv. unfold render_uop, failed_to_render. by rewrite Hv.
  - intros pre post st0 st Hpre. rewrite render_uops_app, Hpre. simpl.
    by rewrite Hst.
  - intros function_name uops Hin. apply uops_to_cstyle_stuck.
    apply render_uops_stuck with (u := u); [|assumption].
    intros st. eexists. apply Hst.
Qed.

(** [castNone] after a constant: the constant is rendered, the cast is not. *)
Lemma cast_without_type_is_not_rendered_witness :
  render_uops OpenCL (fun _ => 1) [Ex.one; Ex.castNone; Ex.endScope] initial_state
  = Err (RuntimeError_failed_to_render CAST).
Proof.
  destruct (cast_without_type_is_not_rendered OpenCL (fun _ => 1) Ex.castNone
              eq_refl eq_refl) as (_ & _ & _ & Hseq & _).
  destruct (render_uops OpenCL (fun _ => 1) [Ex.one] initial_state) as [st|e] eqn:E;
    [|vm_compute in E; discriminate E].
  exact (Hseq [Ex.one] [Ex.endScope] initial_state st E).
Defined.

(** ** Arithmetic records *)

Section ALU.
Context `{H : Helpers}.

(** The inline test of the code, by cases *)
Lemma ALU_inline_false (cc : UOp -> Z) (u : UOp) (d : DType) :
  ALU_inline cc u d = false <->
  (1 < cc u /\ dtypes_is_int (Some d) = false)
  \/ arg_is_op (arg u) MAX = true
  \/ getenv "EXPAND_SSA" <> 0.
Proof.
  unfold ALU_inline.
  destruct (Z.leb_spec (cc u) 1), (dtypes_is_int (Some d)),
    (arg_is_op (arg u) MAX), (Z.eqb_spec (getenv "EXPAND_SSA") 0); simpl;
    split; intros; try discriminate; try reflexivity; try tauto;
    try (right; right; assumption); try (left; split; [lia|reflexivity]);
    repeat match goal with
      | Hd : _ \/ _ |- _ => destruct Hd
      | Hc : _ /\ _ |- _ => destruct Hc
      end; try discriminate; try lia.
Qed.

End ALU.

Section ALU_errors.
Context `{H : Helpers}.

Lemma collect_r_get_error (st : State) (l : list UOp) (e : Error) :
  r_all st l = Err e -> e = KeyError.
Proof.
  unfold r_all. induction l as [|v l IH]; simpl; [discriminate|].
  unfold r_get at 1. destruct (r st !! uid v); simpl; [|congruence].
  destruct (collect (map (r_get st) l)); simpl; [discriminate|].
  intros [= <-]. by apply IH.
Qed.

(** The expression of an ALU record fails with an index, key or type error
    only. *)
Lemma ALU_val_error (lang : CStyleLanguage) (u : UOp) (d : DType) (st : State)
    (e : Error) :
  ALU_val lang u d st = Err e -> e = IndexError \/ e = KeyError \/ e = TypeError.
Proof.
  unfold ALU_val, vin_at.
  destruct (vin u !! 0%nat) as [v0|]; simpl; [|intros [= <-]; auto].
  destruct (arg u); try (intros [= <-]; auto).
  destruct (code_for_op lang op) as [f|]; simpl; [|intros [= <-]; auto].
  destruct (_ && _).
  - unfold r_get at 1. destruct (r st !! uid v0); simpl; [|intros [= <-]; auto].
    destruct (r_all st (drop 1 (vin u))) eqn:E; simpl.
    + destruct (f _ d); simpl; [discriminate | intros [= <-]; auto].
    + intros [= <-]. apply collect_r_get_error in E. auto.
  - destruct (r_all st (vin u)) eqn:E; simpl.
    + destruct (f _ d); simpl; [discriminate | intros [= <-]; auto].
    + intros [= <-]. apply collect_r_get_error in E. auto.
Qed.

End ALU_errors.

(** C2, as amended.  An ALU record that is rendered is materialized, that is,
    a declaration with the next name of the counter ["alu"] is emitted and
    the symbol table entry is bound to that name, exactly when its use-count
    exceeds 1 and its result type is not an integer type, or its operator is
    max, or the variable EXPAND_SSA is set.  In every other case nothing is
    emitted and the entry is bound to the expression itself. *)
Theorem ALU_materialize_or_inline `{H : Helpers} (lang : CStyleLanguage)
    (cc : UOp -> Z) (u : UOp) (st st' : State) :
  uop u = ALU ->
  render_uop lang cc u st = Ok st' ->
  exists d val,
    dtype u = Some d /\ ALU_val lang u d st = Ok val
    /\ (((1 < cc u /\ dtypes_is_int (Some d) = false)
         \/ arg_is_op (arg u) MAX = true
         \/ getenv "EXPAND_SSA" <> 0) ->
        let name := "alu" +:+ pretty (counter st "alu") in
        kernel st' = (kernel st ++ [indent st +:+ decl_line lang d name val])%list
        /\ r st' = <[uid u := name]> (r st))
    /\ (~ ((1 < cc u /\ dtypes_is_int (Some d) = false)
           \/ arg_is_op (arg u) MAX = true
           \/ getenv "EXPAND_SSA" <> 0) ->
        kernel st' = kernel st /\ r st' = <[uid u := val]> (r st)).
Proof.
  intros Hk. unfold render_uop. rewrite Hk. unfold render_ALU. intros Hr.
  apply bind_Ok in Hr. destruct Hr as (d & Hd & Hr). apply or_raise_Ok in Hd.
  apply bind_Ok in Hr. destruct Hr as (val & Hval & Hr).
  apply bind_Ok in Hr. destruct Hr as (_ & _ & Hr).
  exists d, val. split; [assumption|]. split; [assumption|].
  destruct (ALU_inline cc u d) eqn:Ei.
  - injection Hr as <-. split.
    + intros Hm. apply ALU_inline_false in Hm. congruence.
    + intros _. split; reflexivity.
  - injection Hr as <-. split.
    + intros _. split; reflexivity.
    + intros Hm. apply ALU_inline_false in Ei. contradiction.
Qed.

(** In [max_kernel] the sum of the two loads would be inlined and their
    maximum is materialized; both are used once. *)
Lemma ALU_materialize_or_inline_witness :
  exists st st' val,
    render_uops OpenCL (child_count Ex.max_kernel)
      [Ex.bufA; Ex.bufB; Ex.bufC; Ex.zero; Ex.loadA; Ex.loadB] initial_state = Ok st
    /\ render_uop OpenCL (child_count Ex.max_kernel) Ex.maxAB st = Ok st'
    /\ ALU_val OpenCL Ex.maxAB Tiny.float32 st = Ok val
    /\ kernel st' = (kernel st ++ [indent st +:+ decl_line OpenCL Tiny.float32 "alu0" val])%list.
Proof.
  destruct (render_uops OpenCL (child_count Ex.max_kernel)
              [Ex.bufA; Ex.bufB; Ex.bufC; Ex.zero; Ex.loadA; Ex.loadB] initial_state)
    as [st|e] eqn:E; [|vm_compute in E; discriminate E].
  destruct (render_uop OpenCL (child_count Ex.max_kernel) Ex.maxAB st)
    as [st'|e] eqn:E'; [|vm_compute in E; injection E as <-; vm_compute in E'; discriminate E'].
  destruct (ALU_materialize_or_inline OpenCL (child_count Ex.max_kernel) Ex.maxAB
              st st' eq_refl E') as (d & val & Hd & Hval & Hm & _).
  injection Hd as <-.
  exists st, st', val. split; [reflexivity|]. split; [exact E'|].
  split; [exact Hval|].
  destruct Hm as [Hm _]; [right; left; reflexivity|].
  vm_compute in E. injection E as <-. exact Hm.
Defined.

(** C2 as stated fails: the maximum in [max_kernel] has the operator max and
    one use, so the rule of the claim inlines it under either reading of the
    override, and the renderer emits a declaration for it. *)
Lemma max_with_one_use_is_materialized :
  child_count Ex.max_kernel Ex.maxAB = 1
  /\ (forall override,
        spec_materialize (child_count Ex.max_kernel) Ex.maxAB Tiny.float32 override = false)
  /\ exists st st',
       render_uops OpenCL (child_count Ex.max_kernel)
         [Ex.bufA; Ex.bufB; Ex.bufC; Ex.zero; Ex.loadA; Ex.loadB] initial_state = Ok st
       /\ render_uop OpenCL (child_count Ex.max_kernel) Ex.maxAB st = Ok st'
       /\ kernel st' = (kernel st ++ ["  float alu0 = max(val0,val1);"])%list
       /\ r st' !! uid Ex.maxAB = Some "alu0".
Proof.
  split; [reflexivity|]. split; [intros []; reflexivity|].
  eexists. eexists. split; [vm_compute; reflexivity|].
  split; [vm_compute; reflexivity|]. split; vm_compute; reflexivity.
Qed.

(** C9.  An ALU record that no record of the sequence uses is never
    rendered: in every state it raises an error, and that error is the
    assertion error "childless ALU op found" as soon as the record has a
    result type and its expression can be rendered.  A render call on a
    sequence that holds such a record fails.  An ALU record with a use-count
    other than 0 never raises that error. *)
Theorem childless_ALU_is_fatal `{H : Helpers} (lang : CStyleLanguage) (u : UOp) :
  uop u = ALU ->
  (forall cc st, cc u = 0 -> exists e, render_uop lang cc u st = Err e)
  /\ (forall cc st d val, cc u = 0 -> dtype u = Some d ->
        ALU_val lang u d st = Ok val ->
        render_uop lang cc u st = Err (AssertionError childless_ALU_op_found))
  /\ (forall function_name uops, In u uops -> child_count uops u = 0 ->
        exists e, uops_to_cstyle lang function_name uops = Err e)
  /\ (forall cc st, cc u <> 0 ->
        render_uop lang cc u st <> Err (AssertionError childless_ALU_op_found)).
Proof.
  intros Hk.
  assert (Hstuck : forall cc st, cc u = 0 -> exists e, render_uop lang cc u st = Err e).
  { intros cc st Hc. unfold render_uop. rewrite Hk. unfold render_ALU.
    destruct (dtype u) as [d|]; simpl; [|eauto].
    destruct (ALU_val lang u d st); simpl; [|eauto].
    rewrite Hc. simpl. eauto. }
  split; [exact Hstuck|]. split; [|split].
  - intros cc st d val Hc Hd Hval. unfold render_uop. rewrite Hk.
    unfold render_ALU. rewrite Hd. simpl. rewrite Hval. simpl. by rewrite Hc.
  - intros function_name uops Hin Hc. apply uops_to_cstyle_stuck.
    apply render_uops_stuck with (u := u); [|assumption].
    intros st. by apply Hstuck.
  - intros cc st Hc. unfold render_uop. rewrite Hk. unfold render_ALU.
    destruct (dtype u) as [d|]; simpl; [|discriminate].
    destruct (ALU_val lang u d st) as [val|e] eqn:Ev; simpl.
    + destruct (Z.eqb_spec (cc u) 0) as [|_]; [contradiction|]. simpl.
      destruct (ALU_inline cc u d); discriminate.
    + intros [= ->]. apply ALU_val_error in Ev.
      destruct Ev as [|[|]]; discriminate.
Qed.

(** An addition that nothing uses stops the render call; the sum in
    [max_kernel] is used once and is rendered. *)
Lemma childless_ALU_is_fatal_witness :
  uops_to_cstyle OpenCL "k" [Ex.one; Ex.deadAdd]
  = Err (AssertionError childless_ALU_op_found).
Proof.
  destruct (childless_ALU_is_fatal OpenCL Ex.deadAdd eq_refl) as (_ & Hfatal & _).
  unfold uops_to_cstyle. simpl.
  rewrite (Hfatal (child_count [Ex.one; Ex.deadAdd]) _ Tiny.float32 "(1.0f+1.0f)");
    reflexivity.
Defined.

(** ** Constants *)



(** ** Memory records *)



Section Counters.
Context `{H : Helpers}.

Lemma counter_after_ssa (u : UOp) (prefix : string) (st : State) :
  counter (snd (ssa u prefix st)) prefix = counter st prefix + 1.
Proof. unfold ssa, counter. simpl. by rewrite lookup_insert_eq. Qed.

End Counters.



(** ** Matrix-multiply-accumulate records *)



(** * Further properties of the renderer *)

(** ** What a pass keeps *)

(** The parts of [extends] that hold because a field is unchanged or has
    something added at its end *)
Ltac extends_part :=
  first
    [ solve [exists []; by rewrite app_nil_r]
    | solve [by eexists]
    | solve [intros; unfold counter; simpl; lia]
    | solve [intros k Hk; rewrite lookup_insert_is_Some'; by right]
    | done ].

Section Extends.
Context `{H : Helpers}.

Lemma extends_refl (st : State) : extends st st.
Proof. repeat split; extends_part. Qed.

Lemma extends_trans (st1 st2 st3 : State) :
  extends st1 st2 -> extends st2 st3 -> extends st1 st3.
Proof.
  intros ([l1 Hk1] & [p1 Hp1] & Hc1 & Hr1) ([l2 Hk2] & [p2 Hp2] & Hc2 & Hr2).
  repeat split.
  - exists (l1 ++ l2)%list. by rewrite Hk2, Hk1, app_assoc.
  - exists (p1 ++ p2)%list. by rewrite Hp2, Hp1, app_assoc.
  - intros prefix. specialize (Hc1 prefix). specialize (Hc2 prefix). lia.
  - intros k Hk. auto.
Qed.

Lemma extends_kk (s : string) (st st1 : State) :
  extends st st1 -> extends st (kk s st1).
Proof.
  intros Hx. apply (extends_trans _ st1); [assumption|].
  repeat split; simpl; extends_part.
Qed.

Lemma extends_set_r (u : UOp) (s : string) (st st1 : State) :
  extends st st1 -> extends st (set_r u s st1).
Proof.
  intros Hx. apply (extends_trans _ st1); [assumption|].
  repeat split; simpl; extends_part.
Qed.

Lemma extends_add_depth (d : Z) (st st1 : State) :
  extends st st1 -> extends st (add_depth d st1).
Proof.
  intros Hx. apply (extends_trans _ st1); [assumption|].
  repeat split; simpl; extends_part.
Qed.

Lemma extends_ssa (u : UOp) (prefix name : string) (st st1 st2 : State) :
  ssa u prefix st1 = (name, st2) -> extends st st1 -> extends st st2.
Proof.
  intros [= _ <-] Hx. apply (extends_trans _ st1); [assumption|].
  split; [|split; [|split]]; simpl; try extends_part.
  intros q. unfold counter. simpl. rewrite lookup_insert.
  case_decide; subst; simpl; lia.
Qed.

Lemma extends_ssa_state (u : UOp) (prefix name : string) (st st1 : State) :
  extends st st1 ->
  extends st {| kernel := kernel st1; prekernel := prekernel st1; bufs := bufs st1;
                local_size := local_size st1; depth := depth st1;
                c := <[prefix := counter st1 prefix + 1]> (c st1);
                r := <[uid u := name]> (r st1) |}.
Proof.
  intros Hx. apply (extends_trans _ st1); [assumption|].
  split; [|split; [|split]]; simpl; try extends_part.
  intros q. unfold counter. simpl. rewrite lookup_insert.
  case_decide; subst; simpl; lia.
Qed.

Lemma extends_declare (lang : CStyleLanguage) (u : UOp) (d : DType)
    (prefix val : string) (st st1 : State) :
  extends st st1 -> extends st (declare lang u d prefix val st1).
Proof.
  intros Hx. unfold declare.
  destruct (ssa u prefix st1) as [name st2] eqn:E.
  apply extends_kk. by apply (extends_ssa u prefix name st st1 st2).
Qed.

(** the three places where an arm writes a record out by hand *)
Lemma extends_local_size (x : Z) (st st1 : State) :
  extends st st1 ->
  extends st {| kernel := kernel st1; prekernel := prekernel st1; bufs := bufs st1;
                local_size := (local_size st1 ++ [x])%list; depth := depth st1;
                c := c st1; r := r st1 |}.
Proof.
  intros Hx. apply (extends_trans _ st1); [assumption|].
  repeat split; simpl; extends_part.
Qed.

Lemma extends_prekernel (x : string) (st st1 : State) :
  extends st st1 ->
  extends st {| kernel := kernel st1; prekernel := (prekernel st1 ++ [x])%list;
                bufs := bufs st1; local_size := local_size st1; depth := depth st1;
                c := c st1; r := r st1 |}.
Proof.
  intros Hx. apply (extends_trans _ st1); [assumption|].
  repeat split; simpl; extends_part.
Qed.

Lemma extends_bufs (x : string * DType) (st st1 : State) :
  extends st st1 ->
  extends st {| kernel := kernel st1; prekernel := prekernel st1;
                bufs := (bufs st1 ++ [x])%list; local_size := local_size st1;
                depth := depth st1; c := c st1; r := r st1 |}.
Proof.
  intros Hx. apply (extends_trans _ st1); [assumption|].
  repeat split; simpl; extends_part.
Qed.

End Extends.

(** Build the state an arm returns from the state it starts in. *)
Ltac extends_tac :=
  repeat match goal with
    | |- context [if ?b then _ else _] => destruct b
    end;
  repeat first
    [ apply extends_refl
    | apply extends_kk
    | apply extends_set_r
    | apply extends_add_depth
    | apply extends_declare
    | apply extends_ssa_state
    | apply extends_local_size
    | apply extends_prekernel
    | apply extends_bufs
    | match goal with
      | E : ssa ?u ?p ?s1 = (?n, ?s2) |- extends _ ?s2 =>
          apply (extends_ssa u p n _ s1 s2 E)
      end ].

Section Pass.
Context `{H : Helpers}.

Lemma render_uop_extends (lang : CStyleLanguage) (cc : UOp -> Z) (u : UOp)
    (st st' : State) :
  render_uop lang cc u st = Ok st' -> extends st st'.
Proof.
  unfold render_uop.
  destruct (uop u) eqn:Ek; intros Hr.
  all: try (unfold failed_to_render in Hr; destruct (dtype u); discriminate Hr).
  - unfold render_LOOP in Hr. step_cases; extends_tac.
  - unfold render_IF in Hr. step_cases; extends_tac.
  - unfold render_BARRIER in Hr. step_cases; extends_tac.
  - unfold render_END in Hr. step_cases; extends_tac.
  - unfold render_WMMA in Hr. step_cases; extends_tac.
  - unfold render_ALU in Hr. step_cases; extends_tac.
  - unfold render_DEFINE_ACC in Hr. step_cases; extends_tac.
  - unfold render_SPECIAL in Hr. step_cases; extends_tac.
  - unfold render_CONST in Hr. step_cases; extends_tac.
  - unfold render_LOAD in Hr. step_cases; extends_tac.
  - unfold render_PHI in Hr. step_cases; extends_tac.
  - unfold render_STORE in Hr. step_cases; extends_tac.
  - destruct (dtype u) eqn:Ed; [|discriminate Hr].
    unfold render_CAST in Hr. step_cases; extends_tac.
  - unfold render_DEFINE_LOCAL in Hr. step_cases; extends_tac.
  - unfold render_DEFINE_GLOBAL in Hr. step_cases; extends_tac.
  - unfold render_GEP in Hr. step_cases; extends_tac.
Qed.

Lemma render_uops_extends (lang : CStyleLanguage) (cc : UOp -> Z) (uops : list UOp)
    (st st' : State) :
  render_uops lang cc uops st = Ok st' -> extends st st'.
Proof.
  revert st. induction uops as [|u rest IH]; intros st Hr; simpl in Hr.
  - injection Hr as <-. apply extends_refl.
  - apply bind_Ok in Hr. destruct Hr as (st1 & H1 & Hr).
    apply (extends_trans _ st1); [by apply (render_uop_extends lang cc u) | by apply IH].
Qed.

End Pass.

(** Close a goal about the entry an arm has just bound. *)
Ltac bound_tac :=
  repeat match goal with
    | |- context [if ?b then _ else _] => destruct b
    end;
  simpl; rewrite ?lookup_insert_eq; eauto.

Section Bound.
Context `{H : Helpers}.

Lemma render_uop_binds (lang : CStyleLanguage) (cc : UOp -> Z) (u : UOp)
    (st st' : State) :
  render_uop lang cc u st = Ok st' ->
  binds_entry (uop u) = true ->
  is_Some (r st' !! uid u).
Proof.
  unfold render_uop.
  destruct (uop u) eqn:Ek; intros Hr Hb; try discriminate Hb.
  - unfold render_LOOP, ssa in Hr. step_cases; bound_tac.
  - unfold render_WMMA, ssa in Hr. step_cases; bound_tac.
  - unfold render_ALU, declare, ssa in Hr. step_cases; bound_tac.
  - unfold render_DEFINE_ACC, ssa in Hr. step_cases; bound_tac.
  - unfold render_SPECIAL in Hr. step_cases; bound_tac.
  - unfold render_CONST in Hr. step_cases; bound_tac.
  - unfold render_LOAD, declare, ssa in Hr. step_cases; bound_tac.
  - unfold render_PHI in Hr. step_cases; bound_tac.
  - destruct (dtype u) eqn:Ed; [|discriminate Hr].
    unfold render_CAST, declare, ssa in Hr. step_cases; bound_tac.
  - unfold render_DEFINE_LOCAL in Hr. step_cases; bound_tac.
  - unfold render_DEFINE_GLOBAL in Hr. step_cases; bound_tac.
  - unfold render_GEP in Hr. step_cases; bound_tac.
Qed.

(** The name a LOAD record is given *)
Lemma render_LOAD_name (lang : CStyleLanguage) (u : UOp) (st st' : State) :
  render_LOAD lang u st = Ok st' ->
  r st' !! uid u = Some ("val" +:+ pretty (counter st "val"))
  /\ counter st' "val" = counter st "val" + 1.
Proof.
  unfold render_LOAD. intros Hr.
  apply bind_Ok in Hr. destruct Hr as (d & _ & Hr).
  apply bind_Ok in Hr. destruct Hr as (v0 & _ & Hr).
  apply bind_Ok in Hr. destruct Hr as (buf & _ & Hr).
  apply bind_Ok in Hr. destruct Hr as (idx & _ & Hr).
  apply bind_Ok in Hr. destruct Hr as (loaded & _ & Hr).
  apply bind_Ok in Hr. destruct Hr as (val & _ & Hr).
  injection Hr as <-. unfold declare, ssa, counter. simpl.
  by rewrite !lookup_insert_eq.
Qed.

End Bound.

(** X1.  The text of a pass over a sequence begins with the text of the pass
    over any beginning of the sequence: when the pass over [pre ++ post]
    succeeds, so does the pass over [pre], and the kernel lines and the
    pre-kernel lines it has emitted are those the longer pass starts with.
    Nothing that has been emitted is changed or taken back. *)
Theorem emitted_text_is_kept `{H : Helpers} (lang : CStyleLanguage) (cc : UOp -> Z)
    (pre post : list UOp) (st0 st' : State) :
  render_uops lang cc (pre ++ post) st0 = Ok st' ->
  exists st,
    render_uops lang cc pre st0 = Ok st
    /\ (exists lines, kernel st' = (kernel st ++ lines)%list)
    /\ (exists lines, prekernel st' = (prekernel st ++ lines)%list).
Proof.
  rewrite render_uops_app. intros Hr.
  apply bind_Ok in Hr. destruct Hr as (st & Hpre & Hpost).
  exists st. split; [assumption|].
  apply render_uops_extends in Hpost. destruct Hpost as (Hk & Hp & _).
  by split.
Qed.

(** The two loads of [max_kernel] are the beginning of its body. *)
Lemma emitted_text_is_kept_witness :
  kernel Ex.stLoads = ["  float val0 = A[0];"; "  float val1 = B[0];"]
  /\ exists st,
       render_uops OpenCL (child_count Ex.max_kernel)
         [Ex.bufA; Ex.bufB; Ex.bufC; Ex.zero; Ex.loadA; Ex.loadB] initial_state = Ok st
       /\ (exists lines, kernel Ex.stMax = (kernel st ++ lines)%list)
       /\ (exists lines, prekernel Ex.stMax = (prekernel st ++ lines)%list).
Proof.
  split; [reflexivity|].
  apply (emitted_text_is_kept OpenCL (child_count Ex.max_kernel)
           [Ex.bufA; Ex.bufB; Ex.bufC; Ex.zero; Ex.loadA; Ex.loadB]
           [Ex.maxAB; Ex.storeMax] initial_state Ex.stMax).
  vm_compute. reflexivity.
Defined.

(** X2.  Two LOAD records rendered in the same pass get different names:
    when the second is rendered after the first, with any records in
    between, the entries the symbol table holds for them right after each
    has been rendered are different. *)
Theorem loads_get_different_names `{H : Helpers} (lang : CStyleLanguage)
    (cc : UOp -> Z) (u1 u2 : UOp) (between : list UOp) (st1 st1' st2 st2' : State) :
  uop u1 = LOAD -> uop u2 = LOAD ->
  render_uop lang cc u1 st1 = Ok st1' ->
  render_uops lang cc between st1' = Ok st2 ->
  render_uop lang cc u2 st2 = Ok st2' ->
  exists n1 n2,
    r st1' !! uid u1 = Some n1 /\ r st2' !! uid u2 = Some n2 /\ n1 <> n2.
Proof.
  intros Hk1 Hk2. unfold render_uop. rewrite Hk1, Hk2. intros H1 Hb H2.
  apply render_LOAD_name in H1. destruct H1 as [Hn1 Hc1].
  apply render_LOAD_name in H2. destruct H2 as [Hn2 _].
  apply render_uops_extends in Hb. destruct Hb as (_ & _ & Hc & _).
  specialize (Hc "val").
  eexists. eexists. split; [exact Hn1|]. split; [exact Hn2|].
  intros Heq. simpl in Heq. injection Heq as Heq.
  assert (Hsame : counter st1 "val" = counter st2 "val") by (by apply (inj pretty)).
  lia.
Qed.

(** The two loads of [max_kernel], with nothing in between *)
Lemma loads_get_different_names_witness :
  r Ex.stLoadA !! uid Ex.loadA = Some "val0"
  /\ r Ex.stLoadB !! uid Ex.loadB = Some "val1"
  /\ exists n1 n2,
       r Ex.stLoadA !! uid Ex.loadA = Some n1
       /\ r Ex.stLoadB !! uid Ex.loadB = Some n2 /\ n1 <> n2.
Proof.
  split; [reflexivity|]. split; [reflexivity|].
  apply (loads_get_different_names OpenCL (fun _ => 1) Ex.loadA Ex.loadB []
           Ex.stBufs Ex.stLoadA Ex.stLoadA Ex.stLoadB);
    [reflexivity | reflexivity | vm_compute; reflexivity | reflexivity
    | vm_compute; reflexivity].
Defined.

(** X3.  After a pass that succeeds, the symbol table has an entry for every
    record of the sequence except those of the kinds IF, BARRIER, END and
    STORE: the entry a record is given when it is rendered is there for every
    record rendered after it. *)
Theorem rendered_records_stay_bound `{H : Helpers} (lang : CStyleLanguage)
    (cc : UOp -> Z) (uops : list UOp) (u : UOp) (st0 st' : State) :
  render_uops lang cc uops st0 = Ok st' ->
  In u uops -> binds_entry (uop u) = true ->
  is_Some (r st' !! uid u).
Proof.
  intros Hr Hin Hb. apply in_split in Hin. destruct Hin as (pre & post & ->).
  rewrite render_uops_app in Hr.
  apply bind_Ok in Hr. destruct Hr as (st & _ & Hr). simpl in Hr.
  apply bind_Ok in Hr. destruct Hr as (st1 & Hu & Hpost).
  apply render_uops_extends in Hpost. destruct Hpost as (_ & _ & _ & Hkeep).
  apply Hkeep. by apply (render_uop_binds lang cc u st).
Qed.

(** The first buffer of [max_kernel] is still bound at the end of the pass. *)
Lemma rendered_records_stay_bound_witness :
  is_Some (r Ex.stMax !! uid Ex.bufA).
Proof.
  apply (rendered_records_stay_bound OpenCL (child_count Ex.max_kernel)
           Ex.max_kernel Ex.bufA initial_state Ex.stMax);
    [vm_compute; reflexivity | simpl; auto | reflexivity].
Defined.

(** ** Records that bind without a declaration *)

(** X4.  A CONST record that is rendered emits nothing and uses no name
    counter: the symbol table entry is bound to the literal [render_const]
    gives, as it is when the value is at least 0 and in parentheses
    otherwise.  NaN is not at least 0, so a NaN literal is put in
    parentheses, like a negative one. *)
Theorem const_is_inlined `{H : Helpers} (lang : CStyleLanguage) (cc : UOp -> Z)
    (u : UOp) (st st' : State) :
  uop u = CONST ->
  render_uop lang cc u st = Ok st' ->
  exists x k,
    arg u = ArgNum x /\ render_const lang x (dtype u) = Ok k
    /\ kernel st' = kernel st /\ c st' = c st
    /\ (py_ge0 x = true -> r st' = <[uid u := k]> (r st))
    /\ (py_ge0 x = false -> r st' = <[uid u := "(" +:+ k +:+ ")"]> (r st))
    /\ (x = NFloat FNan \/ x = NFloat (FInf true) -> py_ge0 x = false).
Proof.
  intros Hk. unfold render_uop. rewrite Hk. unfold render_CONST. intros Hr.
  destruct (arg u) as [| | |x| | | |] eqn:Ea; try discriminate Hr.
  apply bind_Ok in Hr. destruct Hr as (k & Hc & Hr). injection Hr as <-.
  exists x, k. do 4 (split; [done|]). split; [|split].
  - intros ->. reflexivity.
  - intros ->. reflexivity.
  - intros [->| ->]; reflexivity.
Qed.

(** The constants [1.0], [-1] and NaN *)
Lemma const_is_inlined_witness :
  render_uop OpenCL (fun _ => 1) Ex.one initial_state
  = Ok (set_r Ex.one "1.0f" initial_state)
  /\ render_uop OpenCL (fun _ => 1) Ex.minusOne initial_state
     = Ok (set_r Ex.minusOne "(-1)" initial_state)
  /\ exists st', render_uop OpenCL (fun _ => 1) Ex.nanConst initial_state = Ok st'
       /\ kernel st' = [] /\ r st' = <[uid Ex.nanConst := "(NAN)"]> ∅.
Proof.
  split; [reflexivity|]. split; [reflexivity|].
  destruct (render_uop OpenCL (fun _ => 1) Ex.nanConst initial_state) as [st'|e] eqn:E;
    [|vm_compute in E; discriminate E].
  destruct (const_is_inlined OpenCL (fun _ => 1) Ex.nanConst initial_state st'
              eq_refl E) as (x & k & Hx & Hk & Hkernel & _ & _ & Hneg & Hnan).
  injection Hx as <-. vm_compute in Hk. injection Hk as <-.
  exists st'. split; [reflexivity|]. split; [exact Hkernel|].
  apply Hneg, Hnan. by left.
Defined.

(** X5.  A CAST record with a result type that is rendered is inlined when
    its use-count is at most 1 and materialized under the next name of the
    counter ["cast"] otherwise.  Unlike for an ALU record, neither an integer
    result type nor EXPAND_SSA changes that. *)
Theorem cast_inline_or_materialize `{H : Helpers} (lang : CStyleLanguage)
    (cc : UOp -> Z) (u : UOp) (d : DType) (st st' : State) :
  uop u = CAST -> dtype u = Some d ->
  render_uop lang cc u st = Ok st' ->
  exists xs bitcast val,
    r_all st (vin u) = Ok xs /\ CAST_bitcast (arg u) = Ok bitcast
    /\ render_cast lang xs d bitcast = Ok val
    /\ (cc u <= 1 ->
        kernel st' = kernel st /\ c st' = c st /\ r st' = <[uid u := val]> (r st))
    /\ (1 < cc u ->
        let name := "cast" +:+ pretty (counter st "cast") in
        kernel st' = (kernel st ++ [indent st +:+ decl_line lang d name val])%list
        /\ r st' = <[uid u := name]> (r st)
        /\ counter st' "cast" = counter st "cast" + 1).
Proof.
  intros Hk Hd. unfold render_uop. rewrite Hk, Hd. unfold render_CAST. intros Hr.
  apply bind_Ok in Hr. destruct Hr as (xs & Hxs & Hr).
  apply bind_Ok in Hr. destruct Hr as (bitcast & Hb & Hr).
  apply bind_Ok in Hr. destruct Hr as (val & Hval & Hr).
  exists xs, bitcast, val. do 3 (split; [assumption|]).
  destruct (Z.leb_spec (cc u) 1) as [Hle|Hgt]; injection Hr as <-; split.
  - intros _. done.
  - intros Hlt. lia.
  - intros Hle. lia.
  - intros _. cbv zeta. split; [reflexivity|]. split; [reflexivity|].
    apply (counter_after_ssa u "cast" st).
Qed.

(** A cast to [int] of a load: used at most once it is inlined, used twice it
    is declared, integer type or not. *)
Lemma cast_inline_or_materialize_witness :
  (kernel Ex.stCastInline = kernel Ex.stLoadA
   /\ r Ex.stCastInline !! uid Ex.castInt = Some "(int)(val0)")
  /\ (kernel Ex.stCastDeclared
      = (kernel Ex.stLoadA ++ ["  int cast0 = (int)(val0);"])%list
      /\ r Ex.stCastDeclared !! uid Ex.castInt = Some "cast0").
Proof.
  destruct (cast_inline_or_materialize OpenCL (fun _ => 1) Ex.castInt Tiny.int32
              Ex.stLoadA Ex.stCastInline eq_refl eq_refl
              ltac:(vm_compute; reflexivity))
    as (xs & b & val & _ & _ & _ & Hinline & _).
  destruct Hinline as (Hk1 & _ & _); [lia|].
  destruct (cast_inline_or_materialize OpenCL (fun _ => 2) Ex.castInt Tiny.int32
              Ex.stLoadA Ex.stCastDeclared eq_refl eq_refl
              ltac:(vm_compute; reflexivity))
    as (xs' & b' & val' & _ & _ & _ & _ & Hdecl).
  destruct Hdecl as (_ & _ & Hc); [lia|].
  split; [split; [exact Hk1 | reflexivity]|]. split; reflexivity.
Defined.

(** X6.  A PHI record that is rendered emits the assignment of its second
    operand to its first and takes the entry of its first operand as its
    own: it uses no name counter, and after it the record and its first
    operand have the same entry. *)
Theorem phi_is_an_alias `{H : Helpers} (lang : CStyleLanguage) (cc : UOp -> Z)
    (u : UOp) (st st' : State) :
  uop u = PHI ->
  render_uop lang cc u st = Ok st' ->
  exists v0 a b,
    vin u !! 0%nat = Some v0 /\ r_get st v0 = Ok a /\ r_vin st u 1 = Ok b
    /\ kernel st' = (kernel st ++ [indent st +:+ a +:+ " = " +:+ b +:+ ";"])%list
    /\ c st' = c st
    /\ r st' = <[uid u := a]> (r st)
    /\ r st' !! uid u = r st' !! uid v0.
Proof.
  intros Hk. unfold render_uop. rewrite Hk. unfold render_PHI, r_vin, vin_at.
  intros Hr.
  apply bind_Ok in Hr. destruct Hr as (a & Ha & Hr).
  apply bind_Ok in Ha. destruct Ha as (v0 & Hv0 & Ha). apply or_raise_Ok in Hv0.
  apply bind_Ok in Hr. destruct Hr as (b & Hb & Hr).
  apply bind_Ok in Hr. destruct Hr as (a' & Ha' & Hr).
  rewrite Hv0 in Ha'. simpl in Ha'.
  assert (a' = a) as -> by (unfold r_get in *; simpl in Ha'; congruence).
  injection Hr as <-.
  exists v0, a, b. split; [assumption|]. split; [assumption|].
  split; [exact Hb|].
  do 3 (split; [reflexivity|]). simpl.
  rewrite lookup_insert_eq, lookup_insert. case_decide; [reflexivity|].
  unfold r_get in Ha. apply or_raise_Ok in Ha. by rewrite Ha.
Qed.

(** The update of an accumulator with a loaded value *)
Lemma phi_is_an_alias_witness :
  kernel Ex.stPhi = (kernel Ex.stAcc ++ ["  acc0 = val0;"])%list
  /\ r Ex.stPhi !! uid Ex.phi = Some "acc0"
  /\ r Ex.stPhi !! uid Ex.phi = r Ex.stPhi !! uid Ex.acc.
Proof.
  destruct (phi_is_an_alias OpenCL (fun _ => 1) Ex.phi Ex.stAcc Ex.stPhi eq_refl
              ltac:(vm_compute; reflexivity))
    as (v0 & a & b & Hv0 & _ & _ & _ & _ & _ & Halias).
  injection Hv0 as <-.
  split; [reflexivity|]. split; [reflexivity | exact Halias].
Defined.

(** Python indexing, by the position of the index *)
Lemma py_index_cases {A} (l : list A) (i : Z) :
  (0 <= i < Z.of_nat (length l) -> py_index l i = l !! Z.to_nat i)
  /\ (- Z.of_nat (length l) <= i < 0 ->
      py_index l i = l !! Z.to_nat (i + Z.of_nat (length l)))
  /\ (i < - Z.of_nat (length l) \/ Z.of_nat (length l) <= i -> py_index l i = None).
Proof.
  unfold py_index.
  destruct (Z.leb_spec 0 i), (Z.ltb_spec i (Z.of_nat (length l))),
    (Z.leb_spec (- Z.of_nat (length l)) i), (Z.ltb_spec i 0); simpl;
    repeat split; intros; try reflexivity; lia.
Qed.

(** X7.  A GEP record whose operand is bound, has a type, and whose payload
    is the integer [i], renders the component as a subscript when the
    operand is wider than four and as one of the fields [x], [y], [z], [w]
    otherwise.  The field is chosen as Python indexes a string: [i] from 0
    to 3 from the front, from -4 to -1 from the back, and any other [i]
    raises an index error.  The subscript form takes every [i]. *)
Theorem gep_component `{H : Helpers} (lang : CStyleLanguage) (cc : UOp -> Z)
    (u v0 : UOp) (d0 : DType) (i : Z) (x : string) (st : State) :
  uop u = GEP -> vin u !! 0%nat = Some v0 -> dtype v0 = Some d0 ->
  arg u = ArgNum (NInt i) -> r st !! uid v0 = Some x ->
  (4 < dt_sz d0 ->
     render_uop lang cc u st
     = Ok (set_r u ("(" +:+ x +:+ ")[" +:+ pretty i +:+ "]") st))
  /\ (dt_sz d0 <= 4 -> 0 <= i < 4 ->
      exists f, ["x"; "y"; "z"; "w"] !! Z.to_nat i = Some f
        /\ render_uop lang cc u st = Ok (set_r u ("(" +:+ x +:+ ")." +:+ f) st))
  /\ (dt_sz d0 <= 4 -> -4 <= i < 0 ->
      exists f, ["x"; "y"; "z"; "w"] !! Z.to_nat (i + 4) = Some f
        /\ render_uop lang cc u st = Ok (set_r u ("(" +:+ x +:+ ")." +:+ f) st))
  /\ (dt_sz d0 <= 4 -> i < -4 \/ 4 <= i ->
      render_uop lang cc u st = Err IndexError).
Proof.
  intros Hk Hv0 Hd0 Ha Hx. unfold render_uop. rewrite Hk.
  unfold render_GEP, vin_at, r_get. rewrite Hv0. simpl. rewrite Hd0. simpl.
  rewrite Ha, Hx. simpl.
  destruct (py_index_cases ["x"; "y"; "z"; "w"] i) as (Hfront & Hback & Hout).
  cbn [length] in Hfront, Hback, Hout.
  change (Z.of_nat 4) with 4 in Hfront, Hback, Hout.
  split; [|split; [|split]].
  - intros Hw. apply Z.ltb_lt in Hw. by rewrite Hw.
  - intros Hw Hi. apply Z.ltb_ge in Hw. rewrite Hw, (Hfront Hi).
    destruct (["x"; "y"; "z"; "w"] !! Z.to_nat i) as [f|] eqn:Ef.
    + exists f. by split.
    + apply lookup_ge_None in Ef. simpl in Ef. lia.
  - intros Hw Hi. apply Z.ltb_ge in Hw. rewrite Hw, Hback by lia.
    destruct (["x"; "y"; "z"; "w"] !! Z.to_nat (i + 4)) as [f|] eqn:Ef.
    + exists f. by split.
    + apply lookup_ge_None in Ef. simpl in Ef. lia.
  - intros Hw Hi. apply Z.ltb_ge in Hw. rewrite Hw, Hout by lia. reflexivity.
Qed.

(** The components 1, -1 and 4 of a vector of width four *)
Lemma gep_component_witness :
  render_uop OpenCL (fun _ => 1) (Ex.gep 1) Ex.stVec
  = Ok (set_r (Ex.gep 1) "((float4)(1.0f,1.0f,1.0f,1.0f)).y" Ex.stVec)
  /\ render_uop OpenCL (fun _ => 1) (Ex.gep (-1)) Ex.stVec
     = Ok (set_r (Ex.gep (-1)) "((float4)(1.0f,1.0f,1.0f,1.0f)).w" Ex.stVec)
  /\ render_uop OpenCL (fun _ => 1) (Ex.gep 4) Ex.stVec = Err IndexError.
Proof.
  assert (Hx : r Ex.stVec !! uid Ex.vec4 = Some "(float4)(1.0f,1.0f,1.0f,1.0f)")
    by reflexivity.
  split; [|split].
  - destruct (gep_component OpenCL (fun _ => 1) (Ex.gep 1) Ex.vec4 Ex.f32x4 1 _
                Ex.stVec eq_refl eq_refl eq_refl eq_refl Hx) as (_ & Hf & _).
    destruct Hf as (f & Hf & Hr); [simpl; lia | lia |].
    injection Hf as <-. exact Hr.
  - destruct (gep_component OpenCL (fun _ => 1) (Ex.gep (-1)) Ex.vec4 Ex.f32x4 (-1) _
                Ex.stVec eq_refl eq_refl eq_refl eq_refl Hx) as (_ & _ & Hf & _).
    destruct Hf as (f & Hf & Hr); [simpl; lia | lia |].
    injection Hf as <-. exact Hr.
  - destruct (gep_component OpenCL (fun _ => 1) (Ex.gep 4) Ex.vec4 Ex.f32x4 4 _
                Ex.stVec eq_refl eq_refl eq_refl eq_refl Hx) as (_ & _ & _ & Hf).
    apply Hf; [simpl; lia | lia].
Defined.

(** ** Images *)

(** X8.  A load from a buffer of image type is a call of [read_imagef] when
    the loaded type equals the float vector of width four, and the assertion
    error "images must be float4" otherwise, on every profile; a store to
    such a buffer is a call of [write_imagef] under the same condition on the
    stored type, on every profile but WGSL. *)
Theorem image_access_is_float4 `{H : Helpers} (lang : CStyleLanguage)
    (buf_dtype : DType) (buf_name idx : string) (local : bool) :
  is_ImageDType buf_dtype = true ->
  (forall out,
     render_load lang out buf_name (Some buf_dtype) idx local
     = if dt_eqb out (dt_vec dtypes_float 4)
       then Ok ("read_imagef(" +:+ buf_name +:+ ", smp, " +:+ idx +:+ ")")
       else Err (AssertionError images_must_be_float4))
  /\ (lang_class lang <> WGSLLanguage ->
      forall var_name var_dtype,
        render_store lang buf_name buf_dtype var_name var_dtype idx local
        = if dt_eqb var_dtype (dt_vec dtypes_float 4)
          then Ok ("write_imagef(" +:+ buf_name +:+ ", " +:+ idx +:+ ", "
                   +:+ var_name +:+ ");")
          else Err (AssertionError images_must_be_float4)).
Proof.
  intros Himg. split.
  - intros out. unfold render_load. rewrite Himg.
    by destruct (dt_eqb out (dt_vec dtypes_float 4)).
  - intros Hcls var_name var_dtype.
    assert (Hbase : render_store lang buf_name buf_dtype var_name var_dtype idx local
                    = CStyle_render_store lang buf_name buf_dtype var_name var_dtype
                        idx local)
      by (unfold render_store; destruct (lang_class lang); congruence).
    rewrite Hbase. unfold CStyle_render_store. rewrite Himg.
    by destruct (dt_eqb var_dtype (dt_vec dtypes_float 4)).
Qed.

(** A scalar and a vector of width four read from and written to an image *)
Lemma image_access_is_float4_witness :
  render_load OpenCL Tiny.float32 "img" (Some Tiny.imagef) "pos" false
  = Err (AssertionError images_must_be_float4)
  /\ render_load OpenCL Ex.f32x4 "img" (Some Tiny.imagef) "pos" false
     = Ok "read_imagef(img, smp, pos)"
  /\ render_store OpenCL "img" Tiny.imagef "v" Ex.f32x4 "pos" false
     = Ok "write_imagef(img, pos, v);".
Proof.
  destruct (image_access_is_float4 (H:=Tiny.helpers) OpenCL Tiny.imagef "img" "pos"
              false eq_refl)
    as [Hload Hstore].
  split; [exact (Hload Tiny.float32)|]. split; [exact (Hload Ex.f32x4)|].
  apply (Hstore ltac:(discriminate) "v" Ex.f32x4).
Defined.

(** ** The WGSL profile *)

Section WGSL_types.
Context `{H : Helpers}.

(** No type is mapped to the empty name. *)
Lemma WGSL_type_map_names (d : DType) (t : string) :
  dt_lookup WGSL_type_map d = Some t -> t <> EmptyString.
Proof.
  unfold WGSL_type_map. simpl.
  destruct (dt_eqb dtypes_bool d), (dt_eqb dtypes_uint32 d), (dt_eqb dtypes_int32 d),
    (dt_eqb dtypes_half d), (dt_eqb dtypes_float d);
    intros [= <-] || discriminate; discriminate.
Qed.

(** The binding of one buffer *)
Lemma WGSL_binding_cases (i : nat) (b : string * DType) :
  (is_PtrDType (snd b) = true /\ dt_lookup WGSL_type_map (snd b) = None
   /\ WGSL_binding i b = Err KeyError)
  \/ ((is_PtrDType (snd b) = true -> is_Some (dt_lookup WGSL_type_map (snd b)))
      /\ exists line, WGSL_binding i b = Ok line).
Proof.
  destruct b as [name d]. unfold WGSL_binding. cbn [snd].
  destruct (is_PtrDType d) eqn:Ep.
  - destruct (dt_lookup WGSL_type_map d) as [t|] eqn:Et; cbn [or_raise bind].
    + right. split; [by eexists | by eexists].
    + left. done.
  - right. split; [discriminate | by eexists].
Qed.

(** The bindings of a buffer list, the first of them numbered [k] *)
Lemma collect_WGSL_bindings (bufs : list (string * DType)) (k : nat) :
  (Forall (fun b => is_PtrDType (snd b) = true ->
                    is_Some (dt_lookup WGSL_type_map (snd b))) bufs ->
   exists lines, collect (imap (fun i => WGSL_binding (k + i)) bufs) = Ok lines)
  /\ (forall e, collect (imap (fun i => WGSL_binding (k + i)) bufs) = Err e ->
        e = KeyError
        /\ Exists (fun b => is_PtrDType (snd b) = true
                            /\ dt_lookup WGSL_type_map (snd b) = None) bufs).
Proof.
  revert k. induction bufs as [|b rest IH]; intros k.
  - split; [by eexists | discriminate].
  - assert (Hshift : imap (fun i => WGSL_binding (k + i)) (b :: rest)
                     = WGSL_binding (k + 0) b
                         :: imap (fun i => WGSL_binding (S k + i)) rest).
    { simpl. f_equal. apply imap_ext. intros i x _. simpl. f_equal. lia. }
    rewrite Hshift. destruct (IH (S k)) as [IHok IHerr].
    cbn [collect].
    destruct (WGSL_binding_cases (k + 0) b) as [(Hp & Hn & ->)|[Hm [line ->]]];
      cbn [bind].
    + split.
      * intros Hall. apply Forall_cons in Hall. destruct Hall as [Hd _].
        destruct (Hd Hp) as [t Ht]. congruence.
      * intros e [= <-]. split; [reflexivity|]. by apply Exists_cons_hd.
    + split.
      * intros Hall. apply Forall_cons in Hall. destruct Hall as [_ Hall].
        destruct (IHok Hall) as [lines ->]. simpl. by eexists.
      * intros e.
        destruct (collect (imap (fun i => WGSL_binding (S k + i)) rest))
          as [lines|e'] eqn:Ec; simpl; [discriminate|].
        intros [= <-]. destruct (IHerr e' eq_refl) as [-> Hex].
        split; [reflexivity|]. by apply Exists_cons_tl.
Qed.

End WGSL_types.

(** X9.  On the WGSL profile a cast looks only at its first operand and at
    the entry of the target type in the type map: without an entry it raises
    a key error, with one it is the mapped name applied to the first operand
    ([bitcast<name>] for a bitcast), however many operands there are and
    whatever the width of the type is.  The error "no cast for" is never
    raised, since no type is mapped to an empty name. *)
Theorem WGSL_cast `{H : Helpers} (lang : CStyleLanguage) (x : list string)
    (d : DType) (bitcast : bool) :
  lang_class lang = WGSLLanguage ->
  render_cast lang x d bitcast <> Err NotImplementedError_no_cast
  /\ (dt_lookup WGSL_type_map d = None -> render_cast lang x d bitcast = Err KeyError)
  /\ (forall t x0 rest, dt_lookup WGSL_type_map d = Some t -> x = x0 :: rest ->
        render_cast lang x d bitcast
        = Ok (if bitcast then "bitcast<" +:+ t +:+ ">(" +:+ x0 +:+ ")"
              else t +:+ "(" +:+ x0 +:+ ")")).
Proof.
  intros Hcls. unfold render_cast. rewrite Hcls.
  split; [|split].
  - destruct (dt_lookup WGSL_type_map d) as [t|] eqn:Et; simpl; [|discriminate].
    apply WGSL_type_map_names in Et.
    destruct (String.eqb_spec t EmptyString) as [|_]; [contradiction|]. simpl.
    unfold first. destruct (x !! 0%nat); simpl; discriminate.
  - intros ->. reflexivity.
  - intros t x0 rest Et ->. rewrite Et. simpl.
    apply WGSL_type_map_names in Et.
    destruct (String.eqb_spec t EmptyString) as [|_]; [contradiction|]. reflexivity.
Qed.

(** Two operands for a scalar type, and a type without an entry *)
Lemma WGSL_cast_witness :
  render_cast WGSL ["a"; "b"] Tiny.float32 false = Ok "f32(a)"
  /\ render_cast WGSL ["a"] Tiny.bool_ true = Ok "bitcast<f32>(a)"
  /\ render_cast WGSL ["a"] Ex.f32x4 false = Err KeyError.
Proof.
  destruct (WGSL_cast (H:=Tiny.helpers) WGSL ["a"; "b"] Tiny.float32 false eq_refl)
    as (_ & _ & H1).
  destruct (WGSL_cast (H:=Tiny.helpers) WGSL ["a"] Tiny.bool_ true eq_refl)
    as (_ & _ & H2).
  destruct (WGSL_cast (H:=Tiny.helpers) WGSL ["a"] Ex.f32x4 false eq_refl)
    as (_ & H3 & _).
  split; [exact (H1 "f32" "a" ["b"] eq_refl eq_refl)|].
  split; [exact (H2 "f32" "a" [] eq_refl eq_refl)|].
  exact (H3 eq_refl).
Defined.

(** X10.  On the WGSL profile the kernel is assembled exactly when every
    buffer of pointer type has an entry in the type map; a buffer of pointer
    type without one makes the assembly fail with a key error, and no other
    error is possible.  A buffer that is not of pointer type is never looked
    up. *)
Theorem WGSL_kernel_needs_mapped_buffers `{H : Helpers} (lang : CStyleLanguage)
    (function_name : string) (kernel : list string) (bufs : list (string * DType))
    (local_size : list Z) (prekernel : list string) :
  lang_class lang = WGSLLanguage ->
  (Forall (fun b => is_PtrDType (snd b) = true ->
                    is_Some (dt_lookup WGSL_type_map (snd b))) bufs ->
   exists src,
     render_kernel lang function_name kernel bufs local_size prekernel = Ok src)
  /\ (forall e,
        render_kernel lang function_name kernel bufs local_size prekernel = Err e ->
        e = KeyError
        /\ Exists (fun b => is_PtrDType (snd b) = true
                            /\ dt_lookup WGSL_type_map (snd b) = None) bufs).
Proof.
  intros Hcls. unfold render_kernel. rewrite Hcls. unfold WGSL_render_kernel.
  destruct (collect_WGSL_bindings bufs 0) as [Hok Herr].
  assert (Hsame : imap (fun i => WGSL_binding (0 + i)) bufs = imap WGSL_binding bufs)
    by (apply imap_ext; intros i b _; reflexivity).
  rewrite Hsame in Hok, Herr.
  split.
  - intros Hall. destruct (Hok Hall) as [lines ->]. simpl. by eexists.
  - intros e. destruct (collect (imap WGSL_binding bufs)) as [lines|e'] eqn:Ec;
      simpl; [discriminate|].
    intros [= <-]. by apply Herr.
Qed.

(** A float buffer is bound; a buffer of float vectors is not. *)
Lemma WGSL_kernel_needs_mapped_buffers_witness :
  is_Ok (render_kernel WGSL "k" [] Ex.floatSig [] []) = true
  /\ render_kernel WGSL "k" [] Ex.vectorSig [] [] = Err KeyError.
Proof.
  destruct (WGSL_kernel_needs_mapped_buffers WGSL "k" [] Ex.floatSig [] [] eq_refl)
    as [Hok _].
  destruct Hok as [src Hsrc].
  { repeat constructor; simpl; intros; try discriminate; by eexists. }
  split; [by rewrite Hsrc|].
  destruct (WGSL_kernel_needs_mapped_buffers WGSL "k" [] Ex.vectorSig [] [] eq_refl)
    as [_ Herr].
  destruct (render_kernel WGSL "k" [] Ex.vectorSig [] []) as [src'|e] eqn:E;
    [vm_compute in E; discriminate E|].
  destruct (Herr e eq_refl) as [-> _]. reflexivity.
Defined.

(** ** Operator tables *)

(** X11.  The six profiles map the same operators: each has an entry for
    every one of the fifteen operators the base table names, and none for
    any other operator, whatever a profile overrides. *)
Theorem profiles_map_the_same_operators `{H : Helpers} (lang : CStyleLanguage)
    (o : Op) :
  In lang profiles ->
  (code_for_op lang o = None <-> exists name, o = OtherOp name).
Proof.
  intros Hin.
  assert (Hcase : code_for_op lang o = None <-> CStyle_code_for_op o = None).
  { simpl in Hin.
    destruct Hin as [<-|[<-|[<-|[<-|[<-|[<-|[]]]]]]]; destruct o; simpl; done. }
  rewrite Hcase. destruct o; simpl; split; intros Hn;
    try discriminate Hn; try reflexivity; try (by eexists);
    destruct Hn as [name Hn]; discriminate Hn.
Qed.

(** The entries for multiply-accumulate and for the reciprocal in the table
    of WGSL *)
Lemma profiles_map_the_same_operators_witness :
  code_for_op WGSL MULACC <> None
  /\ code_for_op WGSL (OtherOp "RECIP") = None.
Proof.
  split.
  - intros Hn.
    apply (profiles_map_the_same_operators (H:=Tiny.helpers) WGSL MULACC) in Hn;
      [|simpl; tauto].
    destruct Hn as [name Hn]. discriminate Hn.
  - apply (profiles_map_the_same_operators (H:=Tiny.helpers) WGSL (OtherOp "RECIP"));
      [simpl; tauto | by eexists].
Defined.

(** X12.  An ALU record with a result type and at least one operand whose
    operator has no entry in the table of the profile raises a key error,
    before any operand is looked up and whatever its use-count is; without
    an operand it raises an index error first, and without a result type an
    assertion error before that. *)
Theorem unmapped_operator_is_a_key_error `{H : Helpers} (lang : CStyleLanguage)
    (cc : UOp -> Z) (u : UOp) (o : Op) (st : State) :
  uop u = ALU -> arg u = ArgOp o -> code_for_op lang o = None ->
  (dtype u = None ->
     render_uop lang cc u st = Err (AssertionError no_message))
  /\ (dtype u <> None -> vin u = [] -> render_uop lang cc u st = Err IndexError)
  /\ (dtype u <> None -> vin u <> [] -> render_uop lang cc u st = Err KeyError).
Proof.
  intros Hk Ha Hnone. unfold render_uop. rewrite Hk.
  unfold render_ALU, ALU_val, vin_at. rewrite Ha, Hnone.
  split; [|split].
  - intros ->. reflexivity.
  - intros Hd ->. destruct (dtype u); [reflexivity | contradiction].
  - intros Hd Hv. destruct (dtype u); [|contradiction].
    destruct (vin u) as [|v0 rest]; [contradiction | reflexivity].
Qed.

(** The reciprocal of a constant on the OpenCL profile *)
Lemma unmapped_operator_is_a_key_error_witness :
  render_uop OpenCL (fun _ => 1) Ex.recip initial_state = Err KeyError.
Proof.
  destruct (unmapped_operator_is_a_key_error (H:=Tiny.helpers) OpenCL (fun _ => 1)
              Ex.recip (OtherOp "RECIP") initial_state eq_refl eq_refl eq_refl)
    as (_ & _ & Hkey).
  apply Hkey; discriminate.
Defined.

(** ** Use-counts *)

Section Use_counts.
Context `{H : Helpers}.

Lemma count_uid_app (u : UOp) (l1 l2 : list UOp) :
  length (filter (fun v => uid v = uid u) (l1 ++ l2)%list)
  = (length (filter (fun v => uid v = uid u) l1)
     + length (filter (fun v => uid v = uid u) l2))%nat.
Proof. by rewrite filter_app, length_app. Qed.

Lemma count_uid_zero (u : UOp) (l : list UOp) :
  length (filter (fun v => uid v = uid u) l) = 0%nat
  <-> forall v, In v l -> uid v <> uid u.
Proof.
  induction l as [|x l IH]; simpl.
  - split; [intros _ v [] | reflexivity].
  - rewrite filter_cons. destruct (decide (uid x = uid u)) as [He|Hne]; simpl.
    + split; [discriminate|]. intros Hall. exfalso. by apply (Hall x); [left|].
    + rewrite IH. split.
      * intros Hall v [<-|Hin]; [assumption | by apply Hall].
      * intros Hall v Hin. apply Hall. by right.
Qed.

End Use_counts.

(** X13.  The use-count of a record counts operand positions: it is never
    negative, the count over two sequences put together is the sum of the
    counts over each, a record that is listed twice by one consumer counts
    twice, and the count is 0 exactly when no record of the sequence has the
    record among its operands. *)
Theorem child_count_counts_operands `{H : Helpers} (u : UOp) :
  (forall uops, 0 <= child_count uops u)
  /\ (forall l1 l2,
        child_count (l1 ++ l2)%list u = child_count l1 u + child_count l2 u)
  /\ (forall ru, child_count [ru] u
                 = Z.of_nat (length (filter (fun v => uid v = uid u) (vin ru))))
  /\ (forall uops, child_count uops u = 0 <-> ~ used_in uops u).
Proof.
  unfold child_count. split; [|split; [|split]].
  - intros uops. lia.
  - intros l1 l2. rewrite flat_map_app, count_uid_app. lia.
  - intros ru. simpl. by rewrite app_nil_r.
  - intros uops. unfold used_in.
    assert (Hz : forall n : nat, Z.of_nat n = 0 <-> n = 0%nat) by lia.
    rewrite Hz, count_uid_zero. split.
    + intros Hall (ru & v & Hru & Hv & Heq).
      apply (Hall v); [|assumption]. apply in_flat_map. eauto.
    + intros Hno v Hin Heq. apply in_flat_map in Hin.
      destruct Hin as (ru & Hru & Hv). apply Hno. eauto.
Qed.

(** ** More of what a pass keeps *)

(** Close a goal about a field that an arm leaves alone or adds one element
    to. *)
Ltac field_done :=
  repeat match goal with
    | |- context [if ?b then _ else _] => destruct b
    | H : context [if ?b then _ else _] |- _ => destruct b
    end;
  simpl; rewrite ?app_nil_r; try reflexivity; try discriminate; try tauto.

Section Fields.
Context `{H : Helpers}.

Lemma render_uop_local_size (lang : CStyleLanguage) (cc : UOp -> Z) (u : UOp)
    (st st' : State) :
  render_uop lang cc u st = Ok st' ->
  local_size st' = (local_size st ++ local_extent u)%list.
Proof.
  unfold render_uop, local_extent.
  destruct (uop u) eqn:Ek; simpl; intros Hr.
  all: try (unfold failed_to_render in Hr; destruct (dtype u); discriminate Hr).
  - unfold render_LOOP, ssa in Hr. step_cases; field_done.
  - unfold render_IF in Hr. step_cases; field_done.
  - unfold render_BARRIER in Hr. step_cases; field_done.
  - unfold render_END in Hr. step_cases; field_done.
  - unfold render_WMMA, ssa in Hr. step_cases; field_done.
  - unfold render_ALU, declare, ssa in Hr. step_cases; field_done.
  - unfold render_DEFINE_ACC, ssa in Hr. step_cases; field_done.
  - unfold render_SPECIAL in Hr. step_cases; field_done.
  - unfold render_CONST in Hr. step_cases; field_done.
  - unfold render_LOAD, declare, ssa in Hr. step_cases; field_done.
  - unfold render_PHI in Hr. step_cases; field_done.
  - unfold render_STORE in Hr. step_cases; field_done.
  - destruct (dtype u) eqn:Ed; [|discriminate Hr].
    unfold render_CAST, declare, ssa in Hr. step_cases; field_done.
  - unfold render_DEFINE_LOCAL in Hr. step_cases; field_done.
  - unfold render_DEFINE_GLOBAL in Hr. step_cases; field_done.
  - unfold render_GEP in Hr. step_cases; field_done.
Qed.

Lemma render_uop_prekernel (lang : CStyleLanguage) (cc : UOp -> Z) (u : UOp)
    (st st' : State) :
  external_local_bufs lang = false ->
  render_uop lang cc u st = Ok st' ->
  prekernel st' = prekernel st.
Proof.
  intros Hext. unfold render_uop.
  destruct (uop u) eqn:Ek; simpl; intros Hr.
  all: try (unfold failed_to_render in Hr; destruct (dtype u); discriminate Hr).
  - unfold render_LOOP, ssa in Hr. step_cases; field_done.
  - unfold render_IF in Hr. step_cases; field_done.
  - unfold render_BARRIER in Hr. step_cases; field_done.
  - unfold render_END in Hr. step_cases; field_done.
  - unfold render_WMMA, ssa in Hr. step_cases; field_done.
  - unfold render_ALU, declare, ssa in Hr. step_cases; field_done.
  - unfold render_DEFINE_ACC, ssa in Hr. step_cases; field_done.
  - unfold render_SPECIAL in Hr. step_cases; field_done.
  - unfold render_CONST in Hr. step_cases; field_done.
  - unfold render_LOAD, declare, ssa in Hr. step_cases; field_done.
  - unfold render_PHI in Hr. step_cases; field_done.
  - unfold render_STORE in Hr. step_cases; field_done.
  - destruct (dtype u) eqn:Ed; [|discriminate Hr].
    unfold render_CAST, declare, ssa in Hr. step_cases; field_done.
  - unfold render_DEFINE_LOCAL in Hr. rewrite Hext in Hr. step_cases; field_done.
  - unfold render_DEFINE_GLOBAL in Hr. step_cases; field_done.
  - unfold render_GEP in Hr. step_cases; field_done.
Qed.

Lemma r_all_bound (st : State) (l : list UOp) (xs : list string) :
  r_all st l = Ok xs -> forall v, In v l -> is_Some (r st !! uid v).
Proof.
  unfold r_all. revert xs. induction l as [|x l IH]; intros xs Hr v Hin;
    [destruct Hin|].
  simpl in Hr. apply bind_Ok in Hr. destruct Hr as (a & Ha & Hr).
  apply bind_Ok in Hr. destruct Hr as (rest & Hrest & _).
  destruct Hin as [<-|Hin].
  - unfold r_get in Ha. apply or_raise_Ok in Ha. by eexists.
  - by apply (IH rest).
Qed.

End Fields.

(** X14.  After a pass that succeeds, the list of local sizes is the list
    before it followed by the extents of the SPECIAL records whose name
    starts with ["l"], in the order of the sequence; no other record adds to
    it and nothing is taken from it. *)
Theorem local_sizes_in_order `{H : Helpers} (lang : CStyleLanguage) (cc : UOp -> Z)
    (uops : list UOp) (st st' : State) :
  render_uops lang cc uops st = Ok st' ->
  local_size st' = (local_size st ++ flat_map local_extent uops)%list.
Proof.
  revert st. induction uops as [|u rest IH]; intros st Hr; simpl in Hr.
  - injection Hr as <-. simpl. by rewrite app_nil_r.
  - apply bind_Ok in Hr. destruct Hr as (st1 & H1 & Hr).
    apply render_uop_local_size in H1.
    rewrite (IH _ Hr), H1. simpl. by rewrite <- app_assoc.
Qed.

(** A group index between two local indices *)
Lemma local_sizes_in_order_witness :
  exists st',
    render_uops OpenCL (fun _ => 1) [Ex.lidx0; Ex.gidx0; Ex.lidx1] initial_state
    = Ok st'
    /\ local_size st' = [8; 4].
Proof.
  destruct (render_uops OpenCL (fun _ => 1) [Ex.lidx0; Ex.gidx0; Ex.lidx1]
              initial_state) as [st'|e] eqn:E; [|vm_compute in E; discriminate E].
  exists st'. split; [reflexivity|].
  apply (local_sizes_in_order OpenCL (fun _ => 1) _ initial_state st' E).
Defined.

(** X15.  On a profile that does not take its local buffers outside the
    kernel, a pass that succeeds leaves the pre-kernel lines as they were:
    such a profile never emits a pre-kernel line. *)
Theorem prekernel_is_for_external_local_bufs `{H : Helpers} (lang : CStyleLanguage)
    (cc : UOp -> Z) (uops : list UOp) (st st' : State) :
  external_local_bufs lang = false ->
  render_uops lang cc uops st = Ok st' ->
  prekernel st' = prekernel st.
Proof.
  intros Hext. revert st. induction uops as [|u rest IH]; intros st Hr; simpl in Hr.
  - by injection Hr as <-.
  - apply bind_Ok in Hr. destruct Hr as (st1 & H1 & Hr).
    rewrite (IH _ Hr). by apply (render_uop_prekernel lang cc u).
Qed.

(** A local buffer on the OpenCL profile is declared in the kernel; on the
    WGSL profile it is declared before it. *)
Lemma prekernel_is_for_external_local_bufs_witness :
  (exists st', render_uops OpenCL (fun _ => 1) [Ex.temp] initial_state = Ok st'
     /\ prekernel st' = []
     /\ kernel st' = ["  __attribute__ ((aligned (16))) __local float temp[32];"])
  /\ (exists st', render_uops WGSL (fun _ => 1) [Ex.temp] initial_state = Ok st'
        /\ prekernel st' = ["var<workgroup> temp: array<f32,32>;"]
        /\ kernel st' = []).
Proof.
  split.
  - destruct (render_uops OpenCL (fun _ => 1) [Ex.temp] initial_state)
      as [st'|e] eqn:E; [|vm_compute in E; discriminate E].
    exists st'. split; [reflexivity|]. split.
    + apply (prekernel_is_for_external_local_bufs OpenCL (fun _ => 1) [Ex.temp]
               initial_state st' eq_refl E).
    + vm_compute in E. injection E as <-. reflexivity.
  - eexists. split; [vm_compute; reflexivity|]. split; reflexivity.
Defined.

(** X16.  A record of one of the kinds IF, BARRIER, END and STORE that is
    rendered only emits text and moves the depth: the symbol table, the name
    counters, the buffer signature and the local sizes are as before. *)
Theorem statements_bind_nothing `{H : Helpers} (lang : CStyleLanguage)
    (cc : UOp -> Z) (u : UOp) (st st' : State) :
  binds_entry (uop u) = false ->
  render_uop lang cc u st = Ok st' ->
  r st' = r st /\ c st' = c st /\ bufs st' = bufs st
  /\ local_size st' = local_size st.
Proof.
  unfold render_uop.
  destruct (uop u) eqn:Ek; simpl; intros Hb Hr; try discriminate Hb.
  - unfold render_IF in Hr. step_cases. done.
  - unfold render_BARRIER in Hr. step_cases. done.
  - unfold render_END in Hr. step_cases. done.
  - unfold render_STORE in Hr. step_cases;
      repeat match goal with
        | |- context [if ?b then _ else _] => destruct b
        end; done.
  - discriminate Hr.
Qed.

(** An END after the first load *)
Lemma statements_bind_nothing_witness :
  exists st',
    render_uop OpenCL (fun _ => 1) Ex.endScope Ex.stLoadA = Ok st'
    /\ r st' = r Ex.stLoadA /\ c st' = c Ex.stLoadA.
Proof.
  eexists. split; [reflexivity|].
  destruct (statements_bind_nothing OpenCL (fun _ => 1) Ex.endScope Ex.stLoadA _
              eq_refl eq_refl) as (Hr & Hc & _).
  split; [exact Hr | exact Hc].
Defined.

(** X17.  A CAST record with a result type one of whose operands has no
    entry in the symbol table raises a key error: a cast cannot be rendered
    before all of its operands. *)
Theorem cast_of_unbound_operand `{H : Helpers} (lang : CStyleLanguage)
    (cc : UOp -> Z) (u v : UOp) (d : DType) (st : State) :
  uop u = CAST -> dtype u = Some d ->
  In v (vin u) -> r st !! uid v = None ->
  render_uop lang cc u st = Err KeyError.
Proof.
  intros Hk Hd Hin Hv. unfold render_uop. rewrite Hk, Hd. unfold render_CAST.
  destruct (r_all st (vin u)) as [xs|e] eqn:E; simpl.
  - apply r_all_bound with (v := v) in E; [|assumption].
    rewrite Hv in E. by destruct E.
  - apply collect_r_get_error in E. by rewrite E.
Qed.

(** The cast of a load that has not been rendered *)
Lemma cast_of_unbound_operand_witness :
  render_uop OpenCL (fun _ => 1) Ex.castInt Ex.stBufs = Err KeyError.
Proof.
  apply (cast_of_unbound_operand OpenCL (fun _ => 1) Ex.castInt Ex.loadA Tiny.int32
           Ex.stBufs eq_refl eq_refl); [simpl; auto | reflexivity].
Defined.

(** ** Constants and casts together *)

Section Const_errors.
Context `{H : Helpers}.

(** The scalar literal of a constant is computed without an assertion. *)
Lemma math_isnan_error (x : PyNum) (e : Error) :
  math_isnan x = Err e -> e = OverflowError.
Proof.
  unfold math_isnan, py_float. destruct x as [b|n|f]; simpl; try discriminate.
  destruct (float_of_int n); simpl; [discriminate | congruence].
Qed.

Lemma math_isinf_error (x : PyNum) (e : Error) :
  math_isinf x = Err e -> e = OverflowError.
Proof.
  unfold math_isinf, py_float. destruct x as [b|n|f]; simpl; try discriminate.
  destruct (float_of_int n); simpl; [discriminate | congruence].
Qed.

Lemma py_float_str_error (x : PyNum) (e : Error) :
  py_float_str x = Err e -> e = OverflowError.
Proof.
  unfold py_float_str, py_float. destruct x as [b|n|f]; simpl.
  - discriminate.
  - destruct (float_of_int n); simpl; [discriminate | congruence].
  - destruct f as [|neg|y]; discriminate.
Qed.

Lemma py_int_error (x : PyNum) (e : Error) :
  py_int x = Err e -> e = OverflowError \/ e = ValueError.
Proof.
  destruct x as [b|n|[|neg|y]]; simpl; try discriminate; intros [= <-]; auto.
Qed.

(** A cast of as many operands as the target type is wide passes the width
    check. *)
Lemma render_cast_replicate (lang : CStyleLanguage) (val : string) (d : DType) :
  0 <= dt_sz d ->
  render_cast lang (replicate (Z.to_nat (dt_sz d)) val) d false
  <> Err (AssertionError cast_is_wrong_size).
Proof.
  intros Hsz.
  assert (Hlen : Z.of_nat (length (replicate (Z.to_nat (dt_sz d)) val)) = dt_sz d)
    by (rewrite length_replicate; lia).
  assert (Hbase : CStyle_render_cast lang (replicate (Z.to_nat (dt_sz d)) val) d false
                  <> Err (AssertionError cast_is_wrong_size)).
  { unfold CStyle_render_cast. rewrite Hlen.
    destruct (dt_sz d =? 1); simpl.
    - unfold first. destruct (_ !! 0%nat); simpl; discriminate.
    - rewrite Z.eqb_refl. simpl. destruct (float4 lang); discriminate. }
  unfold render_cast. destruct (lang_class lang); try exact Hbase.
  destruct (dt_lookup WGSL_type_map d); simpl; [|discriminate].
  destruct (negb _); [|discriminate].
  unfold first. destruct (_ !! 0%nat); simpl; discriminate.
Qed.

Lemma CStyle_render_const_width (lang : CStyleLanguage) (x : PyNum) (d : DType) :
  0 <= dt_sz d ->
  CStyle_render_const lang x (Some d) <> Err (AssertionError cast_is_wrong_size).
Proof.
  intros Hsz. unfold CStyle_render_const.
  destruct (math_isnan x) as [nan|e] eqn:En; simpl;
    [|apply math_isnan_error in En; subst; discriminate].
  assert (Hlit : forall val : string,
             (if (1 <? dt_sz d) || negb (dt_in d [dtypes_float; dtypes_int; dtypes_bool])
              then render_cast lang (replicate (Z.to_nat (dt_sz d)) val) d false
              else Ok val) <> Err (AssertionError cast_is_wrong_size)).
  { intros val. destruct (_ || _); [by apply render_cast_replicate | discriminate]. }
  destruct nan; simpl; [apply Hlit|].
  destruct (math_isinf x) as [inf|e] eqn:Ei; simpl;
    [|apply math_isinf_error in Ei; subst; discriminate].
  destruct inf; simpl; [apply Hlit|].
  destruct (dtypes_is_float (Some d)).
  - destruct (py_float_str x) as [s|e] eqn:Es; simpl;
      [apply Hlit | apply py_float_str_error in Es; subst; discriminate].
  - destruct (dtypes_is_int (Some d)).
    + destruct (py_int x) as [n|e] eqn:Ez; simpl; [apply Hlit|].
      apply py_int_error in Ez. destruct Ez; subst; discriminate.
    + simpl. apply Hlit.
Qed.

End Const_errors.

(** X18.  Rendering a constant never fails the width check of a cast: for a
    type whose width is not negative, a vector constant is a cast of exactly
    as many copies of the scalar literal as the type is wide, so the error
    "cast is wrong size" is not raised, on any profile and for any value. *)
Theorem constant_passes_the_width_check `{H : Helpers} (lang : CStyleLanguage)
    (x : PyNum) (d : DType) :
  0 <= dt_sz d ->
  render_const lang x (Some d) <> Err (AssertionError cast_is_wrong_size).
Proof.
  intros Hsz. pose proof (CStyle_render_const_width lang x d Hsz) as Hbase.
  unfold render_const. destruct (lang_class lang); try exact Hbase.
  destruct (math_isnan x) as [nan|e] eqn:En; simpl;
    [|apply math_isnan_error in En; subst; discriminate].
  destruct nan; [discriminate|].
  destruct (math_isinf x) as [inf|e] eqn:Ei; simpl;
    [|apply math_isinf_error in Ei; subst; discriminate].
  destruct inf; [discriminate|].
  destruct (CStyle_render_const lang x (Some d)) as [s|e] eqn:Ec; simpl;
    [discriminate|]. congruence.
Qed.

(** The vector of four NaN on the OpenCL profile *)
Lemma constant_passes_the_width_check_witness :
  render_const OpenCL (NFloat FNan) (Some Ex.f32x4) = Ok "(float4)(NAN,NAN,NAN,NAN)"
  /\ render_const OpenCL (NFloat FNan) (Some Ex.f32x4)
     <> Err (AssertionError cast_is_wrong_size).
Proof.
  split; [reflexivity|].
  apply (constant_passes_the_width_check OpenCL (NFloat FNan) Ex.f32x4). simpl. lia.
Defined.

(** X19.  A bitcast, on every profile but WGSL, reinterprets the first
    operand only: it succeeds whenever there is an operand, with the same
    text whatever operands follow it and whatever the width of the target
    type is, and it raises an index error when there is none. *)
Theorem bitcast_reads_the_first_operand `{H : Helpers} (lang : CStyleLanguage)
    (d : DType) :
  lang_class lang <> WGSLLanguage ->
  render_cast lang [] d true = Err IndexError
  /\ (forall x0 rest,
        render_cast lang (x0 :: rest) d true = render_cast lang [x0] d true
        /\ exists s, render_cast lang [x0] d true = Ok s).
Proof.
  intros Hcls. unfold render_cast, CStyle_render_cast.
  destruct (lang_class lang); try contradiction; simpl;
    (split; [reflexivity|]); intros x0 rest; (split; [reflexivity | by eexists]).
Qed.

(** The three forms of a bitcast to [float] *)
Lemma bitcast_reads_the_first_operand_witness :
  render_cast OpenCL ["a"; "b"] Tiny.float32 true = Ok "as_float(a)"
  /\ render_cast Metal ["a"; "b"] Tiny.float32 true = Ok "as_type<float>(a)"
  /\ render_cast CUDA ["a"; "b"] Tiny.float32 true = Ok "(*((float*)&a))"
  /\ render_cast CUDA [] Tiny.float32 true = Err IndexError.
Proof.
  destruct (bitcast_reads_the_first_operand (H:=Tiny.helpers) CUDA Tiny.float32)
    as [Hnone Hfirst]; [discriminate|].
  destruct (Hfirst "a" ["b"]) as [Hsame _].
  split; [reflexivity|]. split; [reflexivity|].
  split; [rewrite Hsame; reflexivity | exact Hnone].
Defined.

(** ** Thread indices *)

(** X20.  A SPECIAL record with the payload [(axis, name, size)] reads the
    list of group indices of the profile when [name] starts with ["g"], the
    list of global indices when it starts with ["i"], and the list of local
    indices otherwise.  An axis outside the list raises an index error, so
    on a profile with an empty list every record of that category fails; an
    axis inside it emits one declaration, binds the entry to [name], and
    records [size] as a local size exactly when [name] starts with ["l"]. *)
Theorem special_reads_its_index_list `{H : Helpers} (lang : CStyleLanguage)
    (cc : UOp -> Z) (u : UOp) (axis size : Z) (name : string) (st : State) :
  uop u = SPECIAL -> arg u = ArgSpecial axis name size ->
  let ids := if startswith name "g" then gid lang
             else if startswith name "i" then xid lang else lid lang in
  (py_index ids axis = None -> render_uop lang cc u st = Err IndexError)
  /\ (ids = [] -> render_uop lang cc u st = Err IndexError)
  /\ (forall x, py_index ids axis = Some x ->
        exists st',
          render_uop lang cc u st = Ok st'
          /\ kernel st'
             = (kernel st ++ [indent st +:+ size_prefix lang +:+ " " +:+ name
                                +:+ " = " +:+ x +:+ "; /* " +:+ pretty size
                                +:+ " */"])%list
          /\ r st' = <[uid u := name]> (r st)
          /\ local_size st'
             = (local_size st ++ if startswith name "l" then [size] else [])%list).
Proof.
  intros Hk Ha ids. unfold render_uop. rewrite Hk. unfold render_SPECIAL.
  rewrite Ha. fold ids.
  split; [|split].
  - intros ->. reflexivity.
  - intros ->.
    replace (py_index [] axis) with (@None string); [reflexivity|].
    unfold py_index. simpl. repeat case_match; try reflexivity; by rewrite lookup_nil.
  - intros x ->. simpl. eexists. split; [reflexivity|].
    destruct (startswith name "l"); simpl; rewrite ?app_nil_r; done.
Qed.

(** A global index on the OpenCL profile and on the Metal profile, which has
    no list of global indices *)
Lemma special_reads_its_index_list_witness :
  (exists st', render_uop OpenCL (fun _ => 1) Ex.idx0 initial_state = Ok st'
     /\ kernel st' = ["  int idx0 = get_global_id(0); /* 16 */"])
  /\ render_uop Metal (fun _ => 1) Ex.idx0 initial_state = Err IndexError.
Proof.
  destruct (special_reads_its_index_list OpenCL (fun _ => 1) Ex.idx0 0 16 "idx0"
              initial_state eq_refl eq_refl) as (_ & _ & Hok).
  destruct (Hok "get_global_id(0)" eq_refl) as (st' & Hst & Hkernel & _).
  destruct (special_reads_its_index_list Metal (fun _ => 1) Ex.idx0 0 16 "idx0"
              initial_state eq_refl eq_refl) as (_ & Hempty & _).
  split; [|exact (Hempty eq_refl)].
  exists st'. split; [exact Hst | exact Hkernel].
Defined.
